(** * Audio Quality Analytics dashboard ([app.py]): model and properties

    A shallow embedding of the Streamlit script [app.py].  The script is
    thin orchestration around collaborators that live outside the file:
    the metric modules, [config.THRESHOLDS], pandas, [tempfile] and the
    Python builtins.  Those collaborators are parameters of the model;
    everything [app.py] itself does (temporary file handling, sequential
    runner calls, the aggregation loop, the summary counters, the widgets
    it renders and the [try]/[except]/[finally] structure) is defined
    here, in the order of the source.  The model starts at the file
    uploader: the static head of the page (page configuration, CSS,
    sidebar table of the thresholds, title) renders the same on every
    execution and is left out. *)

From Stdlib Require Import ZArith Ascii String List Floats.
From stdpp Require Import gmap strings list pretty.

Set Warnings "-inexact-float".

Open Scope string_scope.
Open Scope list_scope.
Open Scope stdpp_scope.

(** ** Python exceptions *)

(** The exception classes the script can tell apart.  Each constructor
    stands for the class and those of its subclasses that are not listed:
    [Exception] is any other subclass of [Exception], [BaseException] any
    other class outside [Exception] ([KeyboardInterrupt], [SystemExit]).
    Streamlit's [StopException] derives from [BaseException]. *)
Inductive pyclass :=
| ImportError
| TypeError
| KeyError
| Exception
| StopException
| BaseException.

Record exn := Exn { exn_class : pyclass; exn_str : string }.

(** [isinstance(e, Exception)] *)
Definition isinstance_Exception (e : exn) : bool :=
  match exn_class e with
  | ImportError | TypeError | KeyError | Exception => true
  | StopException | BaseException => false
  end.

(** [isinstance(e, ImportError)] *)
Definition isinstance_ImportError (e : exn) : bool :=
  match exn_class e with
  | ImportError => true
  | _ => false
  end.

(** The result of evaluating a Python expression or call. *)
Inductive outcome (A : Type) :=
| Returns (a : A)
| Raises (e : exn).
Arguments Returns {A} a.
Arguments Raises {A} e.

Global Instance outcome_ret : MRet outcome := @Returns.
Global Instance outcome_bind : MBind outcome := λ A B f m,
  match m with
  | Returns a => f a
  | Raises e => Raises e
  end.
Global Instance outcome_fmap : FMap outcome := λ A B f m,
  match m with
  | Returns a => Returns (f a)
  | Raises e => Raises e
  end.

(** ** Python numbers *)

(** What the script asks of a score: [score >= threshold],
    [round(score, 3)] and, for the [TypeError] message, the name of its
    type.  Python dispatches all three on the type of the value the
    runner returned. *)
Class PyNumber (num : Type) := {
  py_ge : num → num → bool;
  py_round3 : num → num;
  py_type_name : string;
}.

(** The file system: path to content. *)
Abbreviation files := (gmap string string).

Section App.

Context {num : Type} `{PyNumber num}.

(** ** Values, rows and data frames *)

Inductive pyval :=
| PyNone
| PyStr (s : string)
| PyNum (x : num).

Definition of_score (score : option num) : pyval :=
  match score with
  | Some x => PyNum x
  | None => PyNone
  end.

(** A dict literal with string keys, in insertion order. *)
Definition dict := list (string * pyval).

(** The dicts appended to [results]: [{'Metric': k, 'Score': v}]. *)
Record item := Item { Metric : string; Score : option num }.

(** [pd.DataFrame(rows)] for a list of dicts: the columns are the keys in
    order of first appearance, a key a row lacks reads as [PyNone]. *)
Record DataFrame := { columns : list string; data : list (list pyval) }.

Definition dict_get (k : string) (d : dict) : option pyval :=
  snd <$> List.find (λ kv, bool_decide (fst kv = k)) d.

Definition add_keys (cols : list string) (d : dict) : list string :=
  foldl (λ acc k, if bool_decide (k ∈ acc) then acc else acc ++ [k]) cols (d.*1).

Definition pd_DataFrame (rows : list dict) : DataFrame :=
  let cols := foldl add_keys [] rows in
  {| columns := cols;
     data := (λ d, (λ c, default PyNone (dict_get c d)) <$> cols) <$> rows |}.

(** [df[col]]: the column as a list, [KeyError] when there is none. *)
Definition index_of (col : string) (cols : list string) : option nat :=
  fst <$> list_find (λ c, c = col) cols.

Definition df_getitem (df : DataFrame) (col : string) : outcome (list pyval) :=
  match index_of col (columns df) with
  | Some i => Returns ((λ r, default PyNone (r !! i)) <$> data df)
  | None => Raises (Exn KeyError ("'" +:+ col +:+ "'"))
  end.

(** [df.shape[0]] *)
Definition shape0 (df : DataFrame) : Z := Z.of_nat (length (data df)).

(** [v == s] for a string literal [s]: only a string equals a string. *)
Definition eq_str (v : pyval) (s : string) : bool :=
  match v with
  | PyStr s' => bool_decide (s' = s)
  | _ => false
  end.

(** [df[df[col] == s]]: the rows whose cell in [col] is the string [s]. *)
Definition df_where_eq (df : DataFrame) (col s : string) : outcome DataFrame :=
  cells ← df_getitem df col;
  let mask := (λ v, eq_str v s) <$> cells in
  mret {| columns := columns df;
          data := (filter (λ p, p.1 = true) (zip mask (data df))).*2 |}.

(** [df.style.map(f, subset=[col])]: the CSS computed for each cell of
    the column. *)
Definition style_map (f : pyval → string) (df : DataFrame) (col : string)
  : outcome (list string) :=
  cells ← df_getitem df col;
  mret (M := outcome) (fmap (M := list) f cells).

(** ** Library functions the script calls *)

(** [config.THRESHOLDS] (the module is not part of the file), pandas'
    [df.to_csv(index=False)], [str.encode], [traceback.format_exc] while
    the given exception is being handled. *)
Variable THRESHOLDS : gmap string num.
Variable to_csv : DataFrame → string.
Variable str_encode : string → string → list Byte.byte.
Variable format_exc : exn → string.

(** The second, effective definition of [METRIC_DESCRIPTIONS]. *)
Definition METRIC_DESCRIPTIONS : gmap string string :=
  list_to_map
    [("SRMR", "Technical measurement of reverberation and room acoustics");
     ("SIGMOS_DISC", "Audio continuity and smoothness");
     ("VQScore", "Overall voice quality assessment");
     ("WVMOS", "Predicted subjective quality rating");
     ("SIGMOS_OVRL", "Comprehensive overall audio quality");
     ("SIGMOS_REVERB", "Perceived reverberation quality")].

(** ** The world the script runs in *)

(** What a metric runner handed back: a score or [None], or for SigMOS a
    mapping of sub-metric names to scores (a dict, in insertion order) or
    [None]. *)
Inductive retval :=
| RScore (x : option num)
| RScores (d : option (list (string * option num))).

(** One call of a runner, as observed: which one, on which path, and what
    came back. *)
Record call := Call { callee : string; arg : string; result : outcome retval }.

Inductive widget :=
| st_audio (content format : string)
| st_button (label : string)
| st_progress (pct : Z)
| st_empty
| st_text (s : string)
| st_spinner (s : string)
| st_error (s : string)
| st_code (s : string)
| st_divider
| st_columns (n : Z)
| st_metric (label : string) (value : Z)
| st_subheader (s : string)
| st_dataframe (df : DataFrame) (css : list string)
| st_download_button (label : string) (content : list Byte.byte)
                     (file_name mime key : string).

(** The file system (path to content), the widgets rendered so far, and
    the runner calls made so far. *)
Record world := World {
  fs : files;
  screen : list widget;
  calls : list call;
}.

(** The collaborators of one execution of the script: the name [tempfile]
    picks for a given suffix, [os.path.splitext], the import of the metric
    modules and the four runners.  A runner takes the path and may read
    and change files; it returns or raises. *)
Record collaborators := {
  mkstemp : files → string → string;
  splitext : string → string * string;
  import_metrics : files → outcome () * files;
  calculate_srmr : string → files → outcome (option num) * files;
  calculate_sigmos : string → files → outcome (option (list (string * option num))) * files;
  calculate_vqscore : string → files → outcome (option num) * files;
  calculate_wvmos : string → files → outcome (option num) * files;
}.

(** ** Statements: world passing with exceptions *)

Definition M (A : Type) : Type := world → outcome A * world.

Global Instance M_ret : MRet M := λ A a w, (Returns a, w).
Global Instance M_bind : MBind M := λ A B f m w,
  match m w with
  | (Returns a, w') => f a w'
  | (Raises e, w') => (Raises e, w')
  end.

Definition lift {A} (o : outcome A) : M A := λ w, (o, w).
Definition raise {A} (e : exn) : M A := lift (Raises e).

(** [try: body / except C as e: handler e] *)
Definition try_except (body : M ()) (C : exn → bool) (handler : exn → M ()) : M () :=
  λ w, match body w with
       | (Raises e, w') => if C e then handler e w' else (Raises e, w')
       | r => r
       end.

(** [try: body / finally: final].  The final block always runs; what the
    body raised propagates afterwards unless the final block raises. *)
Definition try_finally (body final : M ()) : M () :=
  λ w, let '(r, w') := body w in
       match final w' with
       | (Returns _, w'') => (r, w'')
       | (Raises e, w'') => (Raises e, w'')
       end.

(** Rendering a widget. *)
Definition st (x : widget) : M () :=
  λ w, (Returns (), World (fs w) (screen w ++ [x]) (calls w)).

(** [st.stop()] *)
Definition st_stop : M () := raise (Exn StopException "").

(** A statement that only touches files. *)
Definition on_files {A} (f : files → outcome A * files) : M A :=
  λ w, let '(r, fs') := f (fs w) in (r, World fs' (screen w) (calls w)).

(** Calling a runner: the call and its result are recorded. *)
Definition invoke {A} (name : string) (inj : A → retval)
    (f : string → files → outcome A * files) (path : string) : M A :=
  λ w, let '(r, fs') := f path (fs w) in
       (r, World fs' (screen w)
                 (calls w ++ [Call name path (inj <$> r)])).

(** ** The script *)

Section Script.

Variable ext : collaborators.

(** *** Result aggregation (the [# Process Results] loop) *)

(** What [score >= None] raises. *)
Definition ge_None_error : exn :=
  Exn TypeError ("'>=' not supported between instances of '" +:+ py_type_name
                 +:+ "' and 'NoneType'").

(** [score >= threshold], where [threshold] is what [THRESHOLDS.get]
    returned. *)
Definition ge_threshold (score : num) (threshold : option num) : outcome bool :=
  match threshold with
  | Some t => Returns (py_ge score t)
  | None => Raises ge_None_error
  end.

(** ["PASS" if score is not None and score >= threshold else "FAIL"]:
    the comparison is evaluated only when the score is not [None]. *)
Definition status_of (score threshold : option num) : outcome string :=
  match score with
  | None => Returns "FAIL"
  | Some s =>
      b ← ge_threshold s threshold;
      mret (if b : bool then "PASS" else "FAIL")
  end.

(** The body of the loop for one item: the dict appended to
    [final_rows]. *)
Definition final_row (it : item) : outcome dict :=
  let metric_name := Metric it in
  let score := Score it in
  let threshold := THRESHOLDS !! metric_name in
  status ← status_of score threshold;
  mret [("Metric", PyStr metric_name);
        ("Description", PyStr (default "" (METRIC_DESCRIPTIONS !! metric_name)));
        ("Your Threshold", of_score threshold);
        ("Score", of_score (py_round3 <$> score));
        ("Result", PyStr status)].

(** [for item in results: ... final_rows.append({...})] *)
Fixpoint process_results (results : list item) (final_rows : list dict)
  : outcome (list dict) :=
  match results with
  | [] => Returns final_rows
  | it :: rest =>
      row ← final_row it;
      process_results rest (final_rows ++ [row])
  end.

(** *** Presentation of the report *)

Definition highlight_status (val : pyval) : string :=
  let color := if eq_str val "PASS" then "green" else "red" in
  "color: " +:+ color +:+ "; font-weight: bold".

Definition present (final_rows : list dict) : M () :=
  let df_results := pd_DataFrame final_rows in
  st st_divider;;
  st (st_columns 3);;
  passed ← lift (df_where_eq df_results "Result" "PASS");
  let pass_count := shape0 passed in
  let total_count := shape0 df_results in
  st (st_metric "Total Checks" total_count);;
  st (st_metric "Passed" pass_count);;
  st (st_metric "Failed" (total_count - pass_count));;
  st (st_subheader "Detailed Analysis");;
  css ← lift (style_map highlight_status df_results "Result");
  st (st_dataframe df_results css);;
  let csv := str_encode (to_csv df_results) "utf-8" in
  st (st_download_button "Download Report CSV" csv
        "audio_analysis_report.csv" "text/csv" "download-csv").

(** *** The analysis run (the body of [if st.button("Run Analysis")]) *)

(** [for k, v in scores_sigmos.items(): results.append(...)] *)
Definition append_items (results : list item) (d : list (string * option num))
  : list item :=
  foldl (λ acc kv, acc ++ [Item kv.1 kv.2]) results d.

(** Truth value of what SigMOS returned: [None] and the empty dict are
    false. *)
Definition truthy (scores : option (list (string * option num))) : bool :=
  match scores with
  | Some (_ :: _) => true
  | _ => false
  end.

(** The lazy import of the metric modules, inside [st.spinner]. *)
Definition load_metrics : M () :=
  st (st_spinner "Initializing metrics... (This may take a minute on first run to download models)");;
  try_except (on_files (import_metrics ext)) isinstance_ImportError
    (λ e, st (st_error ("Failed to load metric modules: " +:+ exn_str e));;
          st_stop).

(** The [try] block. *)
Definition run_metrics (tmp_path : string) : M () :=
  let results := [] in
  load_metrics;;
  st (st_text "Running SRMR...");;
  score_srmr ← invoke "calculate_srmr" RScore (calculate_srmr ext) tmp_path;
  let results := results ++ [Item "SRMR" score_srmr] in
  st (st_progress 25);;
  st (st_text "Running SigMOS...");;
  scores_sigmos ← invoke "calculate_sigmos" RScores (calculate_sigmos ext) tmp_path;
  let results :=
    if truthy scores_sigmos
    then append_items results (default [] scores_sigmos)
    else results in
  st (st_progress 50);;
  st (st_text "Running VQScore...");;
  score_vq ← invoke "calculate_vqscore" RScore (calculate_vqscore ext) tmp_path;
  let results := results ++ [Item "VQScore" score_vq] in
  st (st_progress 75);;
  st (st_text "Running WVMOS...");;
  score_wvmos ← invoke "calculate_wvmos" RScore (calculate_wvmos ext) tmp_path;
  let results := results ++ [Item "WVMOS" score_wvmos] in
  st (st_progress 100);;
  st (st_text "Analysis Complete!");;
  final_rows ← lift (process_results results []);
  present final_rows.

(** The [except Exception as e] block. *)
Definition on_error (e : exn) : M () :=
  st (st_error ("An error occurred during analysis: " +:+ exn_str e));;
  st (st_code (format_exc e)).

(** The [finally] block: [if os.path.exists(tmp_path): os.remove(tmp_path)]. *)
Definition cleanup (tmp_path : string) : M () :=
  λ w, if bool_decide (is_Some (fs w !! tmp_path))
       then (Returns (), World (delete tmp_path (fs w)) (screen w) (calls w))
       else (Returns (), w).

Definition run_analysis (tmp_path : string) : M () :=
  st (st_progress 0);;
  st st_empty;;
  try_finally
    (try_except (run_metrics tmp_path) isinstance_Exception on_error)
    (cleanup tmp_path).

(** *** One execution of the script from the upload widget on *)

Record UploadedFile := { name : string; getvalue : string }.

(** [with tempfile.NamedTemporaryFile(delete=False, suffix=...) as tmp_file:
    tmp_file.write(...); tmp_path = tmp_file.name] *)
Definition save_upload (uploaded_file : UploadedFile) : M string :=
  λ w, let suffix := (splitext ext (name uploaded_file)).2 in
       let tmp_path := mkstemp ext (fs w) suffix in
       (Returns tmp_path,
        World (<[tmp_path := getvalue uploaded_file]> (fs w)) (screen w) (calls w)).

(** [st.button] renders the button and tells whether it was pressed. *)
Definition button (label : string) (pressed : bool) : M bool :=
  st (st_button label);; mret pressed.

(** [uploaded_file] is what the file uploader returned and [run_pressed]
    whether the run control was pressed in this execution. *)
Definition script (uploaded_file : option UploadedFile) (run_pressed : bool) : M () :=
  match uploaded_file with
  | None => mret ()
  | Some f =>
      tmp_path ← save_upload f;
      st (st_audio (getvalue f) "audio/wav");;
      pressed ← button "Run Analysis" run_pressed;
      if pressed : bool then run_analysis tmp_path else mret ()
  end.

(** The path of the temporary file an execution writes the upload to. *)
Definition upload_path (uploaded_file : UploadedFile) (files0 : files) : string :=
  mkstemp ext files0 (splitext ext (name uploaded_file)).2.

(** A fresh execution: Streamlit reruns the script from the top with an
    empty page; the files are whatever earlier executions left. *)
Definition run (uploaded_file : option UploadedFile) (run_pressed : bool)
    (files0 : files) : outcome () * world :=
  script uploaded_file run_pressed (World files0 [] []).

End Script.

(** ** Notions used to state the properties *)

(** The score is present, a threshold is configured for the metric, and
    [score >= threshold] holds. *)
Definition passes (it : item) : bool :=
  match Score it, THRESHOLDS !! Metric it with
  | Some s, Some t => py_ge s t
  | _, _ => false
  end.

(** The loop body can be evaluated for the item: the comparison is not
    reached, or there is a threshold to compare with. *)
Definition comparable (it : item) : bool :=
  match Score it, THRESHOLDS !! Metric it with
  | Some _, None => false
  | _, _ => true
  end.

(** The cells of the report row of an item, in column order. *)
Definition report_cells (it : item) : list pyval :=
  [PyStr (Metric it);
   PyStr (default "" (METRIC_DESCRIPTIONS !! Metric it));
   of_score (THRESHOLDS !! Metric it);
   of_score (py_round3 <$> Score it);
   PyStr (if passes it then "PASS" else "FAIL")].

Definition report_columns : list string :=
  ["Metric"; "Description"; "Your Threshold"; "Score"; "Result"].

(** [results] after the four runners returned. *)
Definition results_of (score_srmr : option num)
    (scores_sigmos : option (list (string * option num)))
    (score_vq score_wvmos : option num) : list item :=
  [Item "SRMR" score_srmr]
  ++ ((λ kv, Item kv.1 kv.2) <$> default [] scores_sigmos)
  ++ [Item "VQScore" score_vq; Item "WVMOS" score_wvmos].

(** *** The courses an analysis run can take *)

(** The dict the loop appends for an item it can evaluate. *)
Definition report_row (it : item) : dict :=
  zip report_columns (report_cells it).

(** The frame built from the rows of the items of [results]. *)
Definition report_frame (rs : list item) : DataFrame :=
  {| columns := report_columns; data := report_cells <$> rs |}.

(** What the presentation block renders for the items of [results]. *)
Definition report_page (rs : list item) : list widget :=
  let df := report_frame rs in
  let total := Z.of_nat (length rs) in
  let passed := Z.of_nat (length (List.filter passes rs)) in
  [st_divider; st_columns 3;
   st_metric "Total Checks" total;
   st_metric "Passed" passed;
   st_metric "Failed" (total - passed);
   st_subheader "Detailed Analysis";
   st_dataframe df ((λ it, highlight_status (PyStr (if passes it then "PASS" else "FAIL"))) <$> rs);
   st_download_button "Download Report CSV" (str_encode (to_csv df) "utf-8")
     "audio_analysis_report.csv" "text/csv" "download-csv"].

(** What the [except Exception] block renders, when it applies. *)
Definition failure_page (e : exn) : list widget :=
  if isinstance_Exception e
  then [st_error ("An error occurred during analysis: " +:+ exn_str e);
        st_code (format_exc e)]
  else [].

(** How far a run got: the import failed, one of the runners raised
    after the earlier ones returned, or all four returned. *)
Inductive course :=
| ImportFailed (e : exn)
| SrmrRaised (e : exn)
| SigmosRaised (s : option num) (e : exn)
| VqRaised (s : option num) (d : option (list (string * option num))) (e : exn)
| WvmosRaised (s : option num) (d : option (list (string * option num)))
              (v : option num) (e : exn)
| AllReturned (s : option num) (d : option (list (string * option num)))
              (v q : option num).

Definition calls_of (path : string) (c : course) : list call :=
  let srmr s := Call "calculate_srmr" path (RScore <$> s) in
  let sigmos d := Call "calculate_sigmos" path (RScores <$> d) in
  let vq v := Call "calculate_vqscore" path (RScore <$> v) in
  let wvmos q := Call "calculate_wvmos" path (RScore <$> q) in
  match c with
  | ImportFailed _ => []
  | SrmrRaised e => [srmr (Raises e)]
  | SigmosRaised s e => [srmr (Returns s); sigmos (Raises e)]
  | VqRaised s d e => [srmr (Returns s); sigmos (Returns d); vq (Raises e)]
  | WvmosRaised s d v e =>
      [srmr (Returns s); sigmos (Returns d); vq (Returns v); wvmos (Raises e)]
  | AllReturned s d v q =>
      [srmr (Returns s); sigmos (Returns d); vq (Returns v); wvmos (Returns q)]
  end.

Definition page_of (up : UploadedFile) (c : course) : list widget :=
  [st_audio (getvalue up) "audio/wav"; st_button "Run Analysis";
   st_progress 0; st_empty;
   st_spinner "Initializing metrics... (This may take a minute on first run to download models)"]
  ++ match c with
     | ImportFailed e =>
         if isinstance_ImportError e
         then [st_error ("Failed to load metric modules: " +:+ exn_str e)]
         else failure_page e
     | SrmrRaised e =>
         [st_text "Running SRMR..."] ++ failure_page e
     | SigmosRaised _ e =>
         [st_text "Running SRMR..."; st_progress 25;
          st_text "Running SigMOS..."] ++ failure_page e
     | VqRaised _ _ e =>
         [st_text "Running SRMR..."; st_progress 25;
          st_text "Running SigMOS..."; st_progress 50;
          st_text "Running VQScore..."] ++ failure_page e
     | WvmosRaised _ _ _ e =>
         [st_text "Running SRMR..."; st_progress 25;
          st_text "Running SigMOS..."; st_progress 50;
          st_text "Running VQScore..."; st_progress 75;
          st_text "Running WVMOS..."] ++ failure_page e
     | AllReturned s d v q =>
         [st_text "Running SRMR..."; st_progress 25;
          st_text "Running SigMOS..."; st_progress 50;
          st_text "Running VQScore..."; st_progress 75;
          st_text "Running WVMOS..."; st_progress 100;
          st_text "Analysis Complete!"]
         ++ (if forallb comparable (results_of s d v q)
             then report_page (results_of s d v q)
             else failure_page ge_None_error)
     end.

(** The items whose report a course displays, if it displays one. *)
Definition reported (c : course) : option (list item) :=
  match c with
  | AllReturned s d v q =>
      if forallb comparable (results_of s d v q)
      then Some (results_of s d v q) else None
  | _ => None
  end.

(** How the execution of the script ends: normally, or with the
    exception that leaves the [try] statement. *)
Definition ending_of (c : course) : outcome () :=
  let after e := if isinstance_Exception e then Returns () else Raises e in
  match c with
  | ImportFailed e =>
      if isinstance_ImportError e then Raises (Exn StopException "") else after e
  | SrmrRaised e | SigmosRaised _ e | VqRaised _ _ e | WvmosRaised _ _ _ e => after e
  | AllReturned _ _ _ _ => Returns ()
  end.

(** Reading the page: the tables shown, the download controls offered,
    the summary counters, the error boxes. *)
Definition tables (page : list widget) : list DataFrame :=
  omap (λ x, match x with st_dataframe df _ => Some df | _ => None end) page.

Definition downloads (page : list widget) : list (string * list Byte.byte) :=
  omap (λ x, match x with
             | st_download_button _ content file_name _ _ => Some (file_name, content)
             | _ => None
             end) page.

Definition counters (page : list widget) : list (string * Z) :=
  omap (λ x, match x with st_metric l v => Some (l, v) | _ => None end) page.

Definition errors (page : list widget) : list widget :=
  List.filter (λ x, match x with st_error _ | st_code _ => true | _ => false end) page.

(** The runners in the order the script calls them. *)
Definition runner_order : list string :=
  ["calculate_srmr"; "calculate_sigmos"; "calculate_vqscore"; "calculate_wvmos"].

(** Which runners were called, in order. *)
Definition callees (cs : list call) : list string := callee <$> cs.

(** What the runners handed back, call by call. *)
Definition outputs (cs : list call) : list (string * outcome retval) :=
  (λ c, (callee c, result c)) <$> cs.

(** The four calls of a run in which every runner returned. *)
Definition returned_calls (path : string) (s : option num)
    (d : option (list (string * option num))) (v q : option num) : list call :=
  [Call "calculate_srmr" path (Returns (RScore s));
   Call "calculate_sigmos" path (Returns (RScores d));
   Call "calculate_vqscore" path (Returns (RScore v));
   Call "calculate_wvmos" path (Returns (RScore q))].

(** The first runner call that raised, if any. *)
Definition raised (cs : list call) : option (string * exn) :=
  match List.find (λ c, match result c with Raises _ => true | _ => false end) cs with
  | Some (Call name _ (Raises e)) => Some (name, e)
  | _ => None
  end.

(** *** Notions for the course a run takes with given collaborators *)

(** The course determined by what the import and the runners do, called
    in the order of the script on the files each one finds, together
    with the files the last of them leaves. *)
Definition course_of (ext : collaborators) (path : string) (files0 : files)
  : course * files :=
  match import_metrics ext files0 with
  | (Raises e, f1) => (ImportFailed e, f1)
  | (Returns _, f1) =>
  match calculate_srmr ext path f1 with
  | (Raises e, f2) => (SrmrRaised e, f2)
  | (Returns s, f2) =>
  match calculate_sigmos ext path f2 with
  | (Raises e, f3) => (SigmosRaised s e, f3)
  | (Returns d, f3) =>
  match calculate_vqscore ext path f3 with
  | (Raises e, f4) => (VqRaised s d e, f4)
  | (Returns v, f4) =>
  match calculate_wvmos ext path f4 with
  | (Raises e, f5) => (WvmosRaised s d v e, f5)
  | (Returns q, f5) => (AllReturned s d v q, f5)
  end end end end end.

(** Collaborators that leave the files alone. *)
Definition quiet (ext : collaborators) : Prop :=
  (∀ f, (import_metrics ext f).2 = f)
  ∧ (∀ p f, (calculate_srmr ext p f).2 = f)
  ∧ (∀ p f, (calculate_sigmos ext p f).2 = f)
  ∧ (∀ p f, (calculate_vqscore ext p f).2 = f)
  ∧ (∀ p f, (calculate_wvmos ext p f).2 = f).

(** The values the progress bar was set to, in order. *)
Definition progress_shown (page : list widget) : list Z :=
  omap (λ x, match x with st_progress pct => Some pct | _ => None end) page.

(** The calls that returned. *)
Definition returned (cs : list call) : list call :=
  List.filter (λ c, match result c with Returns _ => true | Raises _ => false end) cs.

(** The status texts shown, in order. *)
Definition texts (page : list widget) : list string :=
  omap (λ x, match x with st_text s => Some s | _ => None end) page.

(** The tables shown, each with the CSS of its Result column. *)
Definition styled_tables (page : list widget) : list (DataFrame * list string) :=
  omap (λ x, match x with st_dataframe df css => Some (df, css) | _ => None end) page.

(** The cell of a line of a frame under a column name. *)
Definition cell_at (df : DataFrame) (col : string) (row : list pyval) : option pyval :=
  index_of col (columns df) ≫= λ i, row !! i.

End App.

(** The types take the number type explicitly. *)
Arguments pyval : clear implicits.
Arguments dict : clear implicits.
Arguments item : clear implicits.
Arguments DataFrame : clear implicits.
Arguments retval : clear implicits.
Arguments call : clear implicits.
Arguments widget : clear implicits.
Arguments world : clear implicits.
Arguments collaborators : clear implicits.
Arguments M : clear implicits.
Arguments course : clear implicits.

(** ** Python's [float] as a number type *)

Module PyFloat.

(** [round(x, 3)] for a [float]: the exact binary value is rounded to
    three decimals, ties to even, and the decimal is converted back to the
    nearest double.  Integral values, and with them every value of
    magnitude [2^52] or more, round to themselves, as do zeros, infinities
    and NaN.  Below [2^43] the scaled decimal fits 53 bits, so the
    division by [1000] is the correctly rounded conversion; from [2^43] on
    the spacing of doubles exceeds [0.001] and the nearest double is [x]
    again. *)
Definition round3 (x : float) : float :=
  match Prim2SF x with
  | S754_finite s m e =>
      if (0 <=? e)%Z then x
      else
        let d := (2 ^ (- e))%Z in
        let q := (Z.pos m * 1000 / d)%Z in
        let r := (Z.pos m * 1000 mod d)%Z in
        let n := if (d <? 2 * r)%Z || ((d =? 2 * r)%Z && Z.odd q)
                 then (q + 1)%Z else q in
        if (2 ^ 53 <=? n)%Z then x
        else
          let y := PrimFloat.div (PrimFloat.of_uint63 (Uint63.of_Z n)) 1000%float in
          if s then PrimFloat.opp y else y
  | _ => x
  end.

(** [a >= b] on floats is [b <= a]; false when either is NaN. *)
Global Instance number : PyNumber float := {
  py_ge a b := PrimFloat.leb b a;
  py_round3 := round3;
  py_type_name := "float";
}.

End PyFloat.

(** ** A concrete environment to run the model in *)

(** Stand-ins for the collaborators, used to evaluate the script on
    concrete inputs: runners that return or raise a given value, a CSV
    writer that prints the header and the cells separated by commas
    (numbers with their exact decimal expansion), the identity encoding of
    a byte string, and a one-line trace. *)
Module Demo.
Import PyFloat.

Definition returns {A} (a : A) : string → files → outcome A * files :=
  λ _ f, (Returns a, f).

Definition raises {A} (e : exn) : string → files → outcome A * files :=
  λ _ f, (Raises e, f).

Fixpoint extension (p : string) : option string :=
  match p with
  | EmptyString => None
  | String c rest =>
      match extension rest with
      | Some e => Some e
      | None => if Ascii.eqb c "."%char then Some p else None
      end
  end.

Definition collaborators_of
    (srmr : string → files → outcome (option float) * files)
    (sigmos : string → files → outcome (option (list (string * option float))) * files)
    (vq wvmos : string → files → outcome (option float) * files)
  : collaborators float :=
  {| mkstemp := λ _ suffix, "/tmp/tmpq7x2k9" +:+ suffix;
     splitext := λ p, (p, default "" (extension p));
     import_metrics := λ f, (Returns (), f);
     calculate_srmr := srmr;
     calculate_sigmos := sigmos;
     calculate_vqscore := vq;
     calculate_wvmos := wvmos |}.

Fixpoint fraction (fuel : nat) (r d : Z) : string :=
  match fuel with
  | O => ""
  | S fuel' =>
      if (r =? 0)%Z then ""
      else pretty (r * 10 / d)%Z +:+ fraction fuel' (r * 10 mod d)%Z d
  end.

Definition decimal (x : float) : string :=
  match Prim2SF x with
  | S754_zero s => if s then "-0.0" else "0.0"
  | S754_infinity s => if s then "-inf" else "inf"
  | S754_nan => "nan"
  | S754_finite s m e =>
      let sign := if s then "-" else "" in
      if (0 <=? e)%Z then sign +:+ pretty (Z.pos m * 2 ^ e)%Z +:+ ".0"
      else
        let d := (2 ^ (- e))%Z in
        let r := (Z.pos m mod d)%Z in
        sign +:+ pretty (Z.pos m / d)%Z +:+ "."
        +:+ (if (r =? 0)%Z then "0" else fraction (Z.to_nat (- e)) r d)
  end.

Definition cell (v : pyval float) : string :=
  match v with
  | PyNone => ""
  | PyStr s => s
  | PyNum x => decimal x
  end.

Definition join (sep : string) (l : list string) : string :=
  String.concat sep l.

Definition to_csv (df : DataFrame float) : string :=
  String.concat "" (List.map (λ l, join "," l +:+ String "010"%char "")
                              (columns df :: List.map (List.map cell) (data df))).

Definition str_encode (s encoding : string) : list Byte.byte :=
  list_byte_of_string s.

Definition format_exc (e : exn) : string :=
  "Traceback (most recent call last): " +:+ exn_str e.

Definition upload : UploadedFile := {| name := "clip.wav"; getvalue := "RIFF" |}.

(** The thresholds and runner outputs of the worked example. *)
Definition thresholds : gmap string float :=
  list_to_map [("SRMR", 8.0%float); ("SIGMOS_OVRL", 3.0%float);
               ("VQScore", 0.6%float); ("WVMOS", 2.5%float)].

Definition example : collaborators float :=
  collaborators_of (returns (Some 9.5%float))
                   (returns (Some [("SIGMOS_OVRL", Some 3.2%float)]))
                   (returns (Some 0.55%float))
                   (returns (Some 3.0%float)).

(** The same outputs for another upload, under another temporary name. *)
Definition example_again : collaborators float :=
  {| mkstemp := λ _ suffix, "/tmp/tmp0f3c9d" +:+ suffix;
     splitext := splitext example;
     import_metrics := import_metrics example;
     calculate_srmr := calculate_srmr example;
     calculate_sigmos := calculate_sigmos example;
     calculate_vqscore := calculate_vqscore example;
     calculate_wvmos := calculate_wvmos example |}.

Definition second_upload : UploadedFile :=
  {| name := "take2.flac"; getvalue := "fLaC" |}.

(** VQScore raises. *)
Definition vq_fails : collaborators float :=
  collaborators_of (returns (Some 9.5%float))
                   (returns (Some [("SIGMOS_OVRL", Some 3.2%float)]))
                   (raises (Exn Exception "checkpoint not found"))
                   (returns (Some 3.0%float)).

(** SigMOS returns an empty mapping. *)
Definition sigmos_empty : collaborators float :=
  collaborators_of (returns (Some 9.5%float)) (returns (Some []))
                   (returns (Some 0.55%float)) (returns (Some 3.0%float)).

(** SigMOS returns a sub-metric for which no threshold is configured,
    and scores with more than three decimals. *)
Definition sigmos_extra : collaborators float :=
  collaborators_of (returns (Some 9.5%float))
                   (returns (Some [("SIGMOS_OVRL", Some 3.2%float);
                                   ("SIGMOS_NOISE", Some 4.1%float)]))
                   (returns (Some 0.55%float))
                   (returns (Some 3.0%float)).


(** [results] in the worked example and in the run with long scores. *)
Definition rs_example : list (item float) :=
  results_of (Some 9.5%float) (Some [("SIGMOS_OVRL", Some 3.2%float)])
             (Some 0.55%float) (Some 3.0%float).


(** One execution in this environment. *)
Abbreviation execute ext up run_pressed files0 :=
  (run thresholds to_csv str_encode format_exc ext (Some up) run_pressed files0).

(** The import of the metric modules fails: a module is missing, or
    loading a model raises something else. *)
Definition import_fails : collaborators float :=
  {| mkstemp := mkstemp example;
     splitext := splitext example;
     import_metrics := λ f, (Raises (Exn ImportError "No module named 'srmr'"), f);
     calculate_srmr := calculate_srmr example;
     calculate_sigmos := calculate_sigmos example;
     calculate_vqscore := calculate_vqscore example;
     calculate_wvmos := calculate_wvmos example |}.

Definition import_breaks : collaborators float :=
  {| mkstemp := mkstemp example;
     splitext := splitext example;
     import_metrics := λ f, (Raises (Exn Exception "model download failed"), f);
     calculate_srmr := calculate_srmr example;
     calculate_sigmos := calculate_sigmos example;
     calculate_vqscore := calculate_vqscore example;
     calculate_wvmos := calculate_wvmos example |}.

(** Files that are on disk before an execution. *)
Definition disk : files := {["/srv/models/srmr.bin" := "weights"]}.

(** WVMOS just below its threshold: 2.4996 rounds to 2.5. *)
Definition wvmos_close : collaborators float :=
  collaborators_of (returns (Some 9.5%float))
                   (returns (Some [("SIGMOS_OVRL", Some 3.2%float)]))
                   (returns (Some 0.55%float))
                   (returns (Some 2.4996%float)).

(** A sub-metric with a threshold and no description, and a runner that
    returns [None] for a metric without threshold. *)
Definition thresholds_partial : gmap string float :=
  list_to_map [("SIGMOS_NOISE", 3.5%float); ("VQScore", 0.6%float);
               ("WVMOS", 2.5%float)].

Definition srmr_none : collaborators float :=
  collaborators_of (returns None)
                   (returns (Some [("SIGMOS_NOISE", Some 4.1%float)]))
                   (returns (Some 0.55%float))
                   (returns (Some 3.0%float)).

Definition rs_partial : list (item float) :=
  results_of None (Some [("SIGMOS_NOISE", Some 4.1%float)])
             (Some 0.55%float) (Some 3.0%float).

Definition rs_close : list (item float) :=
  results_of (Some 9.5%float) (Some [("SIGMOS_OVRL", Some 3.2%float)])
             (Some 0.55%float) (Some 2.4996%float).

End Demo.

(** * Properties *)

Section Facts.

Context {num : Type} `{PyNumber num}.
Variable THRESHOLDS : gmap string num.
Variable to_csv : DataFrame num → string.
Variable str_encode : string → string → list Byte.byte.
Variable format_exc : exn → string.

(** ** The aggregation loop *)

Lemma status_of_spec (it : item num) :
  status_of (Score it) (THRESHOLDS !! Metric it)
  = if comparable THRESHOLDS it
    then Returns (if passes THRESHOLDS it then "PASS" else "FAIL")
    else Raises ge_None_error.
Proof.
  unfold status_of, comparable, passes.
  destruct (Score it) as [s|]; [|done].
  destruct (THRESHOLDS !! Metric it) as [t|]; simpl; [|done].
  by destruct (py_ge s t).
Qed.

Lemma final_row_spec (it : item num) :
  final_row THRESHOLDS it
  = if comparable THRESHOLDS it
    then Returns (report_row THRESHOLDS it)
    else Raises ge_None_error.
Proof.
  unfold final_row. rewrite status_of_spec.
  by destruct (comparable THRESHOLDS it).
Qed.

Lemma process_results_spec (rs : list (item num)) (acc : list (dict num)) :
  process_results THRESHOLDS rs acc
  = if forallb (comparable THRESHOLDS) rs
    then Returns (acc ++ (report_row THRESHOLDS <$> rs))
    else Raises ge_None_error.
Proof.
  revert acc. induction rs as [|it rs IH]; intros acc; simpl.
  - by rewrite app_nil_r.
  - rewrite final_row_spec.
    destruct (comparable THRESHOLDS it); simpl; [|done].
    rewrite IH. destruct (forallb _ rs); [|done].
    by rewrite <- app_assoc.
Qed.

(** The three cases of the conditional expression: no score, a score
    and a threshold, a score and no threshold. *)
Lemma status_of_no_score (threshold : option num) :
  status_of None threshold = Returns "FAIL".
Proof. reflexivity. Qed.

Lemma status_of_compared (s t : num) :
  status_of (Some s) (Some t) = Returns (if py_ge s t then "PASS" else "FAIL").
Proof. reflexivity. Qed.

Lemma status_of_no_threshold (s : num) :
  status_of (Some s) None = Raises ge_None_error.
Proof. reflexivity. Qed.

Lemma status_PASS_iff (score threshold : option num) :
  status_of score threshold = Returns "PASS"
  ↔ ∃ s t, score = Some s ∧ threshold = Some t ∧ py_ge s t = true.
Proof.
  destruct score as [s|], threshold as [t|]; simpl; split;
    try (intros; discriminate); try (intros (? & ? & ? & ? & ?); discriminate).
  - destruct (py_ge s t) eqn:Hge; [|discriminate]. intros _. by exists s, t.
  - intros (s' & t' & [= <-] & [= <-] & ->). done.
Qed.

(** The loop over the SigMOS mapping appends one item per entry, in the
    order of the mapping. *)
Lemma append_items_spec (rs : list (item num)) (d : list (string * option num)) :
  append_items rs d = rs ++ ((λ kv, Item kv.1 kv.2) <$> d).
Proof.
  unfold append_items. revert rs.
  induction d as [|kv d IH]; intros rs; simpl.
  - by rewrite app_nil_r.
  - rewrite IH. by rewrite <- app_assoc.
Qed.

(** ** The data frame of the report *)

Lemma add_keys_report_row (it : item num) :
  add_keys [] (report_row THRESHOLDS it) = report_columns
  ∧ add_keys report_columns (report_row THRESHOLDS it) = report_columns.
Proof. split; reflexivity. Qed.

Lemma columns_of_report (rs : list (item num)) :
  rs ≠ [] →
  foldl add_keys [] (report_row THRESHOLDS <$> rs) = report_columns.
Proof.
  destruct rs as [|it rs]; [done|intros _]. simpl.
  rewrite (proj1 (add_keys_report_row it)).
  induction rs as [|it' rs IH]; simpl; [done|].
  by rewrite (proj2 (add_keys_report_row it')).
Qed.

Lemma cells_of_report_row (it : item num) :
  (λ c, default PyNone (dict_get c (report_row THRESHOLDS it))) <$> report_columns
  = report_cells THRESHOLDS it.
Proof. reflexivity. Qed.

(** All the dicts of the loop carry the same five keys, so the frame has
    exactly those columns and one line of cells per item. *)
Lemma pd_DataFrame_report (rs : list (item num)) :
  rs ≠ [] →
  pd_DataFrame (report_row THRESHOLDS <$> rs)
  = {| columns := report_columns; data := report_cells THRESHOLDS <$> rs |}.
Proof.
  intros Hrs. unfold pd_DataFrame. rewrite (columns_of_report rs Hrs).
  f_equal. rewrite <- list_fmap_compose.
  apply list_fmap_ext. intros _ it _. apply cells_of_report_row.
Qed.

Lemma result_column (rs : list (item num)) :
  df_getitem {| columns := report_columns; data := report_cells THRESHOLDS <$> rs |}
             "Result"
  = Returns ((λ it, PyStr (if passes THRESHOLDS it then "PASS" else "FAIL")) <$> rs).
Proof.
  unfold df_getitem. change (index_of "Result" _) with (Some 4%nat). simpl.
  f_equal. rewrite <- list_fmap_compose. by apply list_fmap_ext.
Qed.

Lemma eq_str_status (b : bool) :
  eq_str (PyStr (if b then "PASS" else "FAIL") : pyval num) "PASS" = b.
Proof. by destruct b. Qed.

Lemma select_by_mask {A B} (f : A → bool) (g : A → B) (l : list A) :
  (filter (λ p, p.1 = true) (zip (f <$> l) (g <$> l))).*2 = g <$> List.filter f l.
Proof.
  induction l as [|a l IH]; simpl; [done|].
  rewrite filter_cons. simpl. destruct (f a); simpl; [f_equal|]; exact IH.
Qed.

(** [df_results[df_results['Result'] == 'PASS']] keeps the lines of the
    items that pass. *)
Lemma passed_rows (rs : list (item num)) :
  df_where_eq {| columns := report_columns; data := report_cells THRESHOLDS <$> rs |}
              "Result" "PASS"
  = Returns {| columns := report_columns;
               data := report_cells THRESHOLDS <$> List.filter (passes THRESHOLDS) rs |}.
Proof.
  unfold df_where_eq. rewrite result_column. simpl.
  rewrite <- list_fmap_compose.
  rewrite (list_fmap_ext _ (passes THRESHOLDS) rs)
    by (intros; apply eq_str_status).
  by rewrite select_by_mask.
Qed.

(** The presentation block never fails on the rows of the loop: it
    renders the counters, the table and the download control. *)
Lemma present_spec (rs : list (item num)) (w : world num) :
  rs ≠ [] →
  present to_csv str_encode (report_row THRESHOLDS <$> rs) w
  = (Returns (),
     World (fs w) (screen w ++ report_page THRESHOLDS to_csv str_encode rs) (calls w)).
Proof.
  intros Hrs. unfold present. rewrite (pd_DataFrame_report rs Hrs).
  rewrite passed_rows. unfold style_map. rewrite result_column.
  unfold mbind, M_bind, lift, st, shape0. simpl.
  rewrite !length_fmap, <- !app_assoc. simpl.
  rewrite <- list_fmap_compose. done.
Qed.

(** ** The course of a run *)

Lemma results_after_sigmos (rs : list (item num))
    (d : option (list (string * option num))) :
  (if truthy d then append_items rs (default [] d) else rs)
  = rs ++ ((λ kv, Item kv.1 kv.2) <$> default [] d).
Proof.
  destruct d as [[|kv d]|]; simpl; rewrite ?app_nil_r; try done.
  apply (append_items_spec rs (kv :: d)).
Qed.

Lemma results_built (s : option num) d (v q : option num) :
  ((if truthy d
    then append_items [Item "SRMR" s] (default [] d)
    else [Item "SRMR" s]) ++ [Item "VQScore" v]) ++ [Item "WVMOS" q]
  = results_of s d v q.
Proof.
  rewrite results_after_sigmos. unfold results_of.
  by rewrite <- !app_assoc.
Qed.

Lemma results_of_nonempty (s : option num) d (v q : option num) :
  results_of s d v q ≠ [].
Proof. done. Qed.

Lemma cleanup_spec (path : string) (w : world num) :
  ∃ files', cleanup path w = (Returns (), World files' (screen w) (calls w))
            ∧ files' !! path = None.
Proof.
  unfold cleanup. case_bool_decide as Hp.
  - eexists. split; [done|]. apply lookup_delete_eq.
  - exists (fs w). destruct w. split; [done|].
    simpl in *. by apply eq_None_not_Some.
Qed.

(** Whatever the block under [try] does, once the [finally] block has
    run the path is gone and the block's own ending stands. *)
Lemma try_finally_cleanup (body : M num ()) (path : string) (w : world num) :
  ∃ files',
    try_finally body (cleanup path) w
    = ((body w).1, World files' (screen (body w).2) (calls (body w).2))
    ∧ files' !! path = None.
Proof.
  unfold try_finally. destruct (body w) as [r w'].
  destruct (cleanup_spec path w') as (files' & -> & Hgone).
  by exists files'.
Qed.

Lemma run_metrics_course (ext : collaborators num) (path : string)
    (up : UploadedFile) (files1 : files) :
  let w := World files1
             [st_audio (getvalue up) "audio/wav"; st_button "Run Analysis";
              st_progress 0; st_empty] [] in
  ∃ (c : course num) (files' : files),
    try_except (run_metrics THRESHOLDS to_csv str_encode ext path)
               isinstance_Exception (on_error format_exc) w
    = (ending_of c,
       World files' (page_of THRESHOLDS to_csv str_encode format_exc up c)
             (calls_of path c)).
Proof.
  intros w. subst w.
  unfold try_except, run_metrics, load_metrics, try_except, on_files, invoke,
    on_error, st_stop, raise, lift, st, mbind, M_bind. simpl.
  destruct (import_metrics ext files1) as [[[]|e] f1] eqn:Himp; simpl.
  2:{ exists (ImportFailed e). unfold page_of, ending_of, failure_page. simpl.
      destruct (isinstance_ImportError e) eqn:HI; simpl.
      - eauto.
      - destruct (isinstance_Exception e); simpl; eauto. }
  destruct (calculate_srmr ext path f1) as [[s|e] f2]; simpl.
  2:{ exists (SrmrRaised e). unfold page_of, ending_of, failure_page. simpl.
      destruct (isinstance_Exception e); simpl; eauto. }
  destruct (calculate_sigmos ext path f2) as [[d|e] f3]; simpl.
  2:{ exists (SigmosRaised s e). unfold page_of, ending_of, failure_page. simpl.
      destruct (isinstance_Exception e); simpl; eauto. }
  destruct (calculate_vqscore ext path f3) as [[v|e] f4]; simpl.
  2:{ exists (VqRaised s d e). unfold page_of, ending_of, failure_page. simpl.
      destruct (isinstance_Exception e); simpl; eauto. }
  destruct (calculate_wvmos ext path f4) as [[q|e] f5]; simpl.
  2:{ exists (WvmosRaised s d v e). unfold page_of, ending_of, failure_page. simpl.
      destruct (isinstance_Exception e); simpl; eauto. }
  exists (AllReturned s d v q).
  rewrite results_built, process_results_spec.
  unfold page_of, ending_of, failure_page.
  destruct (forallb _ (results_of s d v q)).
  - rewrite app_nil_l, present_spec by apply results_of_nonempty. simpl. eauto.
  - simpl. eauto.
Qed.

(** An execution with the run control pressed follows one of the
    courses, and ends with the temporary file removed. *)
Lemma run_course (ext : collaborators num) (up : UploadedFile) (files0 : files) :
  ∃ (c : course num) (files' : files),
    run THRESHOLDS to_csv str_encode format_exc ext (Some up) true files0
    = (ending_of c,
       World files' (page_of THRESHOLDS to_csv str_encode format_exc up c)
             (calls_of (upload_path ext up files0) c))
    ∧ files' !! upload_path ext up files0 = None.
Proof.
  unfold run, script, save_upload, button, run_analysis, upload_path.
  unfold st at 1 2 3 4. unfold mbind, M_bind, mret, M_ret. simpl.
  generalize (mkstemp ext files0 (splitext ext (name up)).2). intros path.
  match goal with
  | |- context [try_finally ?body _ ?w] =>
      destruct (try_finally_cleanup body path w) as (files' & -> & Hgone);
      destruct (run_metrics_course ext path up (<[path:=getvalue up]> files0))
        as (c & files1 & ->)
  end.
  by exists c, files'.
Qed.

(** ** Reading the page of a course *)

Lemma tables_page_of (up : UploadedFile) (c : course num) :
  tables (page_of THRESHOLDS to_csv str_encode format_exc up c)
  = match reported THRESHOLDS c with
    | Some rs => [report_frame THRESHOLDS rs]
    | None => []
    end.
Proof.
  destruct c; unfold page_of, reported, failure_page; simpl;
    repeat match goal with |- context [if ?b then _ else _] => destruct b end;
    reflexivity.
Qed.

Lemma downloads_page_of (up : UploadedFile) (c : course num) :
  downloads (page_of THRESHOLDS to_csv str_encode format_exc up c)
  = match reported THRESHOLDS c with
    | Some rs => [("audio_analysis_report.csv",
                   str_encode (to_csv (report_frame THRESHOLDS rs)) "utf-8")]
    | None => []
    end.
Proof.
  destruct c; unfold page_of, reported, failure_page; simpl;
    repeat match goal with |- context [if ?b then _ else _] => destruct b end;
    reflexivity.
Qed.

Lemma counters_page_of (up : UploadedFile) (c : course num) :
  counters (page_of THRESHOLDS to_csv str_encode format_exc up c)
  = match reported THRESHOLDS c with
    | Some rs =>
        let total := Z.of_nat (length rs) in
        let passed := Z.of_nat (length (List.filter (passes THRESHOLDS) rs)) in
        [("Total Checks", total); ("Passed", passed); ("Failed", total - passed)%Z]
    | None => []
    end.
Proof.
  destruct c; unfold page_of, reported, failure_page; simpl;
    repeat match goal with |- context [if ?b then _ else _] => destruct b end;
    reflexivity.
Qed.

(** Not pressing the run control: the upload is written, the player and
    the control are rendered, nothing else happens. *)
Lemma run_not_pressed (ext : collaborators num) (up : UploadedFile) (files0 : files) :
  run THRESHOLDS to_csv str_encode format_exc ext (Some up) false files0
  = (Returns (),
     World (<[upload_path ext up files0 := getvalue up]> files0)
           [st_audio (getvalue up) "audio/wav"; st_button "Run Analysis"] []).
Proof. reflexivity. Qed.

(** ** The temporary file *)

(** C2 (as the code behaves).  When a file is uploaded and the run
    control is not pressed, no report and no download control are
    rendered, but the temporary file written for the upload is still on
    disk, with the uploaded bytes, when the execution ends: the removal
    sits in the [finally] block under the run control and is not reached. *)
Theorem C2_unpressed_upload_keeps_tempfile
    (ext : collaborators num) (up : UploadedFile) (files0 : files) :
  let r := run THRESHOLDS to_csv str_encode format_exc ext (Some up) false files0 in
  r.1 = Returns ()
  ∧ tables (screen r.2) = []
  ∧ downloads (screen r.2) = []
  ∧ calls r.2 = []
  ∧ fs r.2 !! upload_path ext up files0 = Some (getvalue up).
Proof.
  rewrite run_not_pressed. simpl.
  repeat split; try reflexivity. apply lookup_insert_eq.
Qed.

(** C3.  Once the run control is pressed, the temporary file of the
    upload is gone when the execution ends, whatever the import and the
    runners do: return, raise an [Exception] (handled, the Failed
    ending), or raise anything else. *)
Theorem C3_tempfile_removed_after_run
    (ext : collaborators num) (up : UploadedFile) (files0 : files) :
  fs (run THRESHOLDS to_csv str_encode format_exc ext (Some up) true files0).2
    !! upload_path ext up files0 = None.
Proof.
  destruct (run_course ext up files0) as (c & files' & -> & Hgone).
  exact Hgone.
Qed.

(** ** A runner that raises *)

Lemma raised_calls_of (path : string) (c : course num) :
  raised (calls_of path c)
  = match c with
    | SrmrRaised e => Some ("calculate_srmr", e)
    | SigmosRaised _ e => Some ("calculate_sigmos", e)
    | VqRaised _ _ e => Some ("calculate_vqscore", e)
    | WvmosRaised _ _ _ e => Some ("calculate_wvmos", e)
    | _ => None
    end.
Proof. by destruct c. Qed.

(** C4.  When a runner raises, the runners after it are never called
    and the page has no counters, no table and no download control.  If
    what it raised is an [Exception], the execution ends normally and
    the page shows exactly one error box, followed by the trace of that
    exception; anything else leaves the script without an error box. *)
Theorem C4_runner_exception_aborts_run
    (ext : collaborators num) (up : UploadedFile) (files0 : files)
    (runner : string) (e : exn) :
  let r := run THRESHOLDS to_csv str_encode format_exc ext (Some up) true files0 in
  raised (calls r.2) = Some (runner, e) →
  (∃ before after, runner_order = before ++ [runner] ++ after
                   ∧ callees (calls r.2) = before ++ [runner])
  ∧ counters (screen r.2) = []
  ∧ tables (screen r.2) = []
  ∧ downloads (screen r.2) = []
  ∧ (isinstance_Exception e = true →
     r.1 = Returns ()
     ∧ errors (screen r.2)
       = [st_error ("An error occurred during analysis: " +:+ exn_str e);
          st_code (format_exc e)])
  ∧ (isinstance_Exception e = false →
     r.1 = Raises e ∧ errors (screen r.2) = []).
Proof.
  intros r. subst r.
  destruct (run_course ext up files0) as (c & files' & -> & _).
  cbn [fst snd screen calls].
  rewrite raised_calls_of, tables_page_of, downloads_page_of, counters_page_of.
  intros Hraised.
  destruct c; simplify_eq; unfold ending_of, page_of, failure_page; simpl;
    (split; [|do 3 (split; [done|]); split; intros He; by rewrite He]).
  - by exists [], ["calculate_sigmos"; "calculate_vqscore"; "calculate_wvmos"].
  - by exists ["calculate_srmr"], ["calculate_vqscore"; "calculate_wvmos"].
  - by exists ["calculate_srmr"; "calculate_sigmos"], ["calculate_wvmos"].
  - by exists ["calculate_srmr"; "calculate_sigmos"; "calculate_vqscore"], [].
Qed.

(** ** The report *)

Lemma reported_Some (c : course num) (rs : list (item num)) :
  reported THRESHOLDS c = Some rs →
  ∃ s d v q, c = AllReturned s d v q
             ∧ rs = results_of s d v q
             ∧ forallb (comparable THRESHOLDS) rs = true.
Proof.
  destruct c as [| | | | |s d v q]; try done. unfold reported.
  destruct (forallb (comparable THRESHOLDS) (results_of s d v q)) eqn:Hc; [|done].
  intros [= <-]. by exists s, d, v, q.
Qed.


Lemma metric_column (rs : list (item num)) :
  df_getitem (report_frame THRESHOLDS rs) "Metric"
  = Returns ((λ it, PyStr (Metric it)) <$> rs).
Proof.
  unfold df_getitem, report_frame.
  change (index_of "Metric" _) with (Some 0%nat). simpl.
  f_equal. rewrite <- list_fmap_compose. by apply list_fmap_ext.
Qed.


(** A table on the page means that all four runners returned and that
    the table is the frame of their results. *)
Lemma table_shown (ext : collaborators num) (up : UploadedFile) (files0 : files)
    (df : DataFrame num) :
  let r := run THRESHOLDS to_csv str_encode format_exc ext (Some up) true files0 in
  df ∈ tables (screen r.2) →
  ∃ s d v q,
    calls r.2 = returned_calls (upload_path ext up files0) s d v q
    ∧ forallb (comparable THRESHOLDS) (results_of s d v q) = true
    ∧ df = report_frame THRESHOLDS (results_of s d v q)
    ∧ tables (screen r.2) = [df]
    ∧ downloads (screen r.2)
      = [("audio_analysis_report.csv", str_encode (to_csv df) "utf-8")]
    ∧ counters (screen r.2)
      = let total := Z.of_nat (length (results_of s d v q)) in
        let passed :=
          Z.of_nat (length (List.filter (passes THRESHOLDS) (results_of s d v q))) in
        [("Total Checks", total); ("Passed", passed); ("Failed", total - passed)%Z].
Proof.
  intros r. subst r.
  destruct (run_course ext up files0) as (c & files' & -> & _).
  cbn [fst snd screen calls].
  rewrite tables_page_of, downloads_page_of, counters_page_of.
  destruct (reported THRESHOLDS c) as [rs|] eqn:Hrs.
  - destruct (reported_Some c rs Hrs) as (s & d & v & q & -> & -> & Hc).
    intros ->%list_elem_of_singleton. by exists s, d, v, q.
  - by intros ?%elem_of_nil.
Qed.

(** The rows that are displayed carry the status the conditional
    computes: PASS exactly when the score and the threshold are present
    and [score >= threshold]. *)
Lemma displayed_status (ext : collaborators num) (up : UploadedFile) (files0 : files)
    (df : DataFrame num) :
  let r := run THRESHOLDS to_csv str_encode format_exc ext (Some up) true files0 in
  df ∈ tables (screen r.2) →
  ∃ s d v q,
    calls r.2 = returned_calls (upload_path ext up files0) s d v q
    ∧ df_getitem df "Result"
      = Returns ((λ it, PyStr (if passes THRESHOLDS it then "PASS" else "FAIL"))
                 <$> results_of s d v q).
Proof.
  intros r Hdf.
  destruct (table_shown ext up files0 df Hdf) as (s & d & v & q & Hcalls & _ & -> & _).
  exists s, d, v, q. split; [exact Hcalls|]. apply result_column.
Qed.

Lemma calls_of_returned (path path' : string) (c : course num) s d v q :
  outputs (calls_of path c) = outputs (returned_calls path' s d v q) →
  c = AllReturned s d v q.
Proof. destruct c; intros Heq; by simplify_eq. Qed.

Lemma reported_by_outputs (path1 path2 : string) (c1 c2 : course num) :
  outputs (calls_of path1 c1) = outputs (calls_of path2 c2) →
  reported THRESHOLDS c1 = reported THRESHOLDS c2.
Proof. destruct c1, c2; intros Heq; by simplify_eq. Qed.

(** C6.  Two runs in which the runners hand back the same values offer
    the same download, byte for byte and under the same file name,
    whatever the uploads, the temporary paths and the files on disk were:
    the CSV depends on the runner outputs only (the thresholds, the
    descriptions and the CSV writer being those of the process). *)
Theorem C6_same_outputs_same_csv
    (ext1 ext2 : collaborators num) (up1 up2 : UploadedFile) (files1 files2 : files) :
  let r1 := run THRESHOLDS to_csv str_encode format_exc ext1 (Some up1) true files1 in
  let r2 := run THRESHOLDS to_csv str_encode format_exc ext2 (Some up2) true files2 in
  outputs (calls r1.2) = outputs (calls r2.2) →
  downloads (screen r1.2) = downloads (screen r2.2).
Proof.
  intros r1 r2. subst r1 r2.
  destruct (run_course ext1 up1 files1) as (c1 & f1 & -> & _).
  destruct (run_course ext2 up2 files2) as (c2 & f2 & -> & _).
  cbn [fst snd screen calls]. intros Hout.
  rewrite !downloads_page_of.
  by rewrite (reported_by_outputs _ _ c1 c2 Hout).
Qed.


(** C8.  The Metric column of a displayed table lists SRMR first, then
    the keys of the mapping SigMOS returned in the order of the mapping,
    then VQScore, then WVMOS. *)
Theorem C8_rows_in_invocation_order
    (ext : collaborators num) (up : UploadedFile) (files0 : files)
    (df : DataFrame num) :
  let r := run THRESHOLDS to_csv str_encode format_exc ext (Some up) true files0 in
  df ∈ tables (screen r.2) →
  ∃ s d v q,
    calls r.2 = returned_calls (upload_path ext up files0) s d v q
    ∧ df_getitem df "Metric"
      = Returns (PyStr <$> ["SRMR"] ++ (default [] d).*1 ++ ["VQScore"; "WVMOS"]).
Proof.
  intros r Hdf.
  destruct (table_shown ext up files0 df Hdf) as (s & d & v & q & Hcalls & _ & -> & _).
  exists s, d, v, q. split; [exact Hcalls|].
  rewrite metric_column. unfold results_of.
  rewrite !fmap_app, <- !list_fmap_compose. done.
Qed.

Lemma results_of_falsy (s : option num) d (v q : option num) :
  truthy d = false →
  results_of s d v q = [Item "SRMR" s; Item "VQScore" v; Item "WVMOS" q].
Proof. by destruct d as [[|kv d]|]. Qed.

(** C9.  When SigMOS returns [None] or an empty mapping and the other
    three runners return, with a threshold configured for each of their
    scores that is not [None], the execution ends normally, the table has
    exactly the SRMR, VQScore and WVMOS rows, the counter shows three
    checks, and no error is rendered. *)
Theorem C9_empty_sigmos_gives_three_rows
    (ext : collaborators num) (up : UploadedFile) (files0 : files)
    (s : option num) (d : option (list (string * option num))) (v q : option num) :
  let r := run THRESHOLDS to_csv str_encode format_exc ext (Some up) true files0 in
  calls r.2 = returned_calls (upload_path ext up files0) s d v q →
  truthy d = false →
  forallb (comparable THRESHOLDS)
          [Item "SRMR" s; Item "VQScore" v; Item "WVMOS" q] = true →
  r.1 = Returns ()
  ∧ (∃ df, tables (screen r.2) = [df]
           ∧ shape0 df = 3%Z
           ∧ df_getitem df "Metric"
             = Returns [PyStr "SRMR"; PyStr "VQScore"; PyStr "WVMOS"])
  ∧ counters (screen r.2) !! 0%nat = Some ("Total Checks", 3%Z)
  ∧ errors (screen r.2) = [].
Proof.
  intros r. subst r.
  destruct (run_course ext up files0) as (c & files' & -> & _).
  cbn [fst snd screen calls]. intros Hcalls Hd Hc.
  apply (f_equal outputs), calls_of_returned in Hcalls. subst c.
  rewrite tables_page_of, counters_page_of.
  unfold reported, page_of, ending_of. rewrite (results_of_falsy s d v q Hd), Hc.
  repeat split. eexists. split; [reflexivity|]. split; [reflexivity|].
  apply metric_column.
Qed.

(** C10.  When a table is displayed, the three counters are Total Checks,
    Passed and Failed, in this order, with Total the number of rows of
    the table, Passed the number of rows whose Result is PASS, Failed
    computed as Total minus Passed, which is the number of rows whose
    Result is not PASS; and Passed + Failed = Total. *)
Theorem C10_summary_counts
    (ext : collaborators num) (up : UploadedFile) (files0 : files)
    (df : DataFrame num) :
  let r := run THRESHOLDS to_csv str_encode format_exc ext (Some up) true files0 in
  df ∈ tables (screen r.2) →
  ∃ total passed failed : Z,
    counters (screen r.2)
    = [("Total Checks", total); ("Passed", passed); ("Failed", failed)]
    ∧ total = shape0 df
    ∧ shape0 <$> df_where_eq df "Result" "PASS" = Returns passed
    ∧ failed = (total - passed)%Z
    ∧ (λ cells, Z.of_nat (length (List.filter (λ x, negb (eq_str x "PASS")) cells)))
        <$> df_getitem df "Result" = Returns failed
    ∧ (passed + failed)%Z = total.
Proof.
  intros r Hdf. subst r.
  destruct (table_shown ext up files0 df Hdf)
    as (s & d & v & q & _ & _ & -> & _ & _ & ->).
  clear Hdf. generalize (results_of s d v q). intros rs.
  eexists _, _, _. split; [reflexivity|].
  unfold report_frame at 1 2. rewrite passed_rows.
  unfold report_frame. rewrite result_column.
  unfold shape0. cbn [fmap outcome_fmap data]. rewrite !length_fmap.
  repeat split; [|lia].
  f_equal. pose proof (filter_length (passes THRESHOLDS) rs) as Hlen.
  assert (length (List.filter (λ x : pyval num, negb (eq_str x "PASS"))
            ((λ it, PyStr (if passes THRESHOLDS it then "PASS" else "FAIL")) <$> rs))
          = length (List.filter (λ it, negb (passes THRESHOLDS it)) rs)) as ->.
  { clear Hlen. induction rs as [|it rs IH]; [done|].
    cbn [fmap list_fmap List.filter]. rewrite eq_str_status.
    destruct (passes THRESHOLDS it); cbn [negb length]; by rewrite <- IH. }
  lia.
Qed.

(** ** A score without a threshold *)

(** C1 (as the code behaves).  When all four runners returned and some
    metric has a score but no entry in [THRESHOLDS], the comparison
    [score >= None] raises [TypeError] in the loop: the row is not marked
    FAIL, no row is produced at all, the page shows neither table nor
    download control, and the error box with the trace is rendered. *)
Theorem C1_score_without_threshold_fails_the_run
    (ext : collaborators num) (up : UploadedFile) (files0 : files)
    (s : option num) (d : option (list (string * option num))) (v q : option num)
    (it : item num) (x : num) :
  let r := run THRESHOLDS to_csv str_encode format_exc ext (Some up) true files0 in
  calls r.2 = returned_calls (upload_path ext up files0) s d v q →
  it ∈ results_of s d v q →
  Score it = Some x →
  THRESHOLDS !! Metric it = None →
  final_row THRESHOLDS it = Raises ge_None_error
  ∧ r.1 = Returns ()
  ∧ tables (screen r.2) = []
  ∧ downloads (screen r.2) = []
  ∧ errors (screen r.2)
    = [st_error ("An error occurred during analysis: " +:+ exn_str ge_None_error);
       st_code (format_exc ge_None_error)].
Proof.
  intros r. subst r.
  destruct (run_course ext up files0) as (c & files' & -> & _).
  cbn [fst snd screen calls]. intros Hcalls Hit Hscore Hthreshold.
  apply (f_equal outputs), calls_of_returned in Hcalls. subst c.
  assert (comparable THRESHOLDS it = false) as Hno
    by (unfold comparable; by rewrite Hscore, Hthreshold).
  split; [by rewrite final_row_spec, Hno|].
  rewrite tables_page_of, downloads_page_of.
  unfold reported, page_of, ending_of.
  destruct (forallb (comparable THRESHOLDS) (results_of s d v q)) eqn:Hall.
  - rewrite forallb_forall in Hall.
    apply list_elem_of_In, Hall in Hit. congruence.
  - done.
Qed.

(** ** The course followed with given collaborators *)

Lemma run_metrics_follows (ext : collaborators num) (path : string)
    (up : UploadedFile) (files1 : files) :
  try_except (run_metrics THRESHOLDS to_csv str_encode ext path)
             isinstance_Exception (on_error format_exc)
             (World files1
                [st_audio (getvalue up) "audio/wav"; st_button "Run Analysis";
                 st_progress 0; st_empty] [])
  = (ending_of (course_of ext path files1).1,
     World (course_of ext path files1).2
           (page_of THRESHOLDS to_csv str_encode format_exc up
                    (course_of ext path files1).1)
           (calls_of path (course_of ext path files1).1)).
Proof.
  unfold try_except, run_metrics, load_metrics, try_except, on_files, invoke,
    on_error, st_stop, raise, lift, st, mbind, M_bind, course_of. simpl.
  destruct (import_metrics ext files1) as [[[]|e] f1]; simpl.
  2:{ unfold page_of, ending_of, failure_page. simpl.
      destruct (isinstance_ImportError e); simpl; [done|].
      by destruct (isinstance_Exception e). }
  destruct (calculate_srmr ext path f1) as [[s|e] f2]; simpl.
  2:{ unfold page_of, ending_of, failure_page. simpl.
      by destruct (isinstance_Exception e). }
  destruct (calculate_sigmos ext path f2) as [[d|e] f3]; simpl.
  2:{ unfold page_of, ending_of, failure_page. simpl.
      by destruct (isinstance_Exception e). }
  destruct (calculate_vqscore ext path f3) as [[v|e] f4]; simpl.
  2:{ unfold page_of, ending_of, failure_page. simpl.
      by destruct (isinstance_Exception e). }
  destruct (calculate_wvmos ext path f4) as [[q|e] f5]; simpl.
  2:{ unfold page_of, ending_of, failure_page. simpl.
      by destruct (isinstance_Exception e). }
  rewrite results_built, process_results_spec.
  unfold page_of, ending_of, failure_page.
  destruct (forallb _ (results_of s d v q)).
  - by rewrite app_nil_l, present_spec by apply results_of_nonempty.
  - done.
Qed.

(** An execution with the run control pressed, in terms of what its
    collaborators do on the files that hold the upload. *)
Lemma run_follows_course (ext : collaborators num) (up : UploadedFile) (files0 : files) :
  let path := upload_path ext up files0 in
  let cf := course_of ext path (<[path := getvalue up]> files0) in
  run THRESHOLDS to_csv str_encode format_exc ext (Some up) true files0
  = (ending_of cf.1,
     World (delete path cf.2)
           (page_of THRESHOLDS to_csv str_encode format_exc up cf.1)
           (calls_of path cf.1)).
Proof.
  unfold run, script, save_upload, button, run_analysis, upload_path.
  unfold st at 1 2 3 4. unfold mbind, M_bind, mret, M_ret. simpl.
  generalize (mkstemp ext files0 (splitext ext (name up)).2). intros path.
  unfold try_finally. rewrite run_metrics_follows.
  unfold cleanup. cbn [fs screen calls]. case_bool_decide as Hp; [done|].
  rewrite delete_id; [done|]. by apply eq_None_not_Some.
Qed.

Lemma course_of_quiet (ext : collaborators num) (path : string) (files1 : files) :
  quiet ext → (course_of ext path files1).2 = files1.
Proof.
  intros (Hi & Hs & Hg & Hv & Hw). unfold course_of.
  pose proof (Hi files1) as H1.
  destruct (import_metrics ext files1) as [[[]|e] f1]; simpl in *; subst f1; [|done].
  pose proof (Hs path files1) as H2.
  destruct (calculate_srmr ext path files1) as [[s|e] f2]; simpl in *; subst f2; [|done].
  pose proof (Hg path files1) as H3.
  destruct (calculate_sigmos ext path files1) as [[d|e] f3]; simpl in *; subst f3; [|done].
  pose proof (Hv path files1) as H4.
  destruct (calculate_vqscore ext path files1) as [[v|e] f4]; simpl in *; subst f4; [|done].
  pose proof (Hw path files1) as H5.
  by destruct (calculate_wvmos ext path files1) as [[q|e] f5]; simpl in *; subst f5.
Qed.

(** ** Failure of the import *)

Lemma course_of_import_raised (ext : collaborators num) (path : string)
    (files1 : files) (e : exn) :
  (import_metrics ext files1).1 = Raises e →
  (course_of ext path files1).1 = ImportFailed e.
Proof.
  unfold course_of.
  destruct (import_metrics ext files1) as [[[]|e'] f1]; simpl; [done|].
  by intros [= ->].
Qed.

(** X1.  When the import of the metric modules raises [ImportError], no
    runner is called; the page shows the one box "Failed to load metric
    modules" and neither the generic analysis error nor a trace, the
    progress bar stays at 0, and the script is left by [st.stop()]
    (through the [except Exception] clause, which does not catch it)
    with the temporary file removed. *)
Theorem import_error_stops_the_script
    (ext : collaborators num) (up : UploadedFile) (files0 : files) (e : exn) :
  let path := upload_path ext up files0 in
  let r := run THRESHOLDS to_csv str_encode format_exc ext (Some up) true files0 in
  (import_metrics ext (<[path := getvalue up]> files0)).1 = Raises e →
  isinstance_ImportError e = true →
  r.1 = Raises (Exn StopException "")
  ∧ calls r.2 = []
  ∧ errors (screen r.2) = [st_error ("Failed to load metric modules: " +:+ exn_str e)]
  ∧ tables (screen r.2) = []
  ∧ downloads (screen r.2) = []
  ∧ progress_shown (screen r.2) = [0%Z]
  ∧ fs r.2 !! path = None.
Proof.
  intros path r Himport HI. subst r.
  pose proof (run_follows_course ext up files0) as Hrun. cbv zeta in Hrun.
  fold path in Hrun. rewrite Hrun, (course_of_import_raised _ _ _ e Himport).
  cbn [fst snd screen calls fs]. unfold ending_of, page_of, calls_of.
  rewrite HI. repeat split. apply lookup_delete_eq.
Qed.

(** X2.  When the import raises an [Exception] that is not an
    [ImportError], the outer handler reports it like a failed analysis:
    no runner is called, the execution ends normally, and the page shows
    the generic error box with the trace and no report. *)
Theorem import_exception_reported_as_analysis_error
    (ext : collaborators num) (up : UploadedFile) (files0 : files) (e : exn) :
  let path := upload_path ext up files0 in
  let r := run THRESHOLDS to_csv str_encode format_exc ext (Some up) true files0 in
  (import_metrics ext (<[path := getvalue up]> files0)).1 = Raises e →
  isinstance_ImportError e = false →
  isinstance_Exception e = true →
  r.1 = Returns ()
  ∧ calls r.2 = []
  ∧ errors (screen r.2)
    = [st_error ("An error occurred during analysis: " +:+ exn_str e);
       st_code (format_exc e)]
  ∧ tables (screen r.2) = []
  ∧ downloads (screen r.2) = [].
Proof.
  intros path r Himport HI HE. subst r.
  pose proof (run_follows_course ext up files0) as Hrun. cbv zeta in Hrun.
  fold path in Hrun. rewrite Hrun, (course_of_import_raised _ _ _ e Himport).
  cbn [fst snd screen calls fs]. unfold ending_of, page_of, calls_of, failure_page.
  rewrite HI, HE. done.
Qed.

(** X3.  No [Exception] leaves the script: an execution either ends
    normally or is left by something outside [Exception] ([st.stop()],
    [KeyboardInterrupt], ...). *)
Theorem no_Exception_escapes
    (ext : collaborators num) (uploaded_file : option UploadedFile)
    (run_pressed : bool) (files0 : files) (e : exn) :
  (run THRESHOLDS to_csv str_encode format_exc ext uploaded_file run_pressed files0).1
  = Raises e →
  isinstance_Exception e = false.
Proof.
  destruct uploaded_file as [up|]; [|done].
  destruct run_pressed; [|done].
  destruct (run_course ext up files0) as (c & files' & -> & _).
  cbn [fst]. unfold ending_of.
  destruct c as [e'|e'|? e'|? ? e'|? ? ? e'|]; try done;
    try (destruct (isinstance_ImportError e'); [by intros [= <-]|]);
    destruct (isinstance_Exception e') eqn:HE; try done; by intros [= <-].
Qed.

(** ** The files after a run *)

Lemma quiet_files (ext : collaborators num) (up : UploadedFile) (files0 : files) :
  quiet ext →
  fs (run THRESHOLDS to_csv str_encode format_exc ext (Some up) true files0).2
  = delete (upload_path ext up files0) files0
  ∧ (files0 !! upload_path ext up files0 = None →
     fs (run THRESHOLDS to_csv str_encode format_exc ext (Some up) true files0).2
     = files0).
Proof.
  intros Hquiet.
  pose proof (run_follows_course ext up files0) as Hrun. cbv zeta in Hrun.
  rewrite Hrun. cbn [snd fs].
  rewrite (course_of_quiet ext _ _ Hquiet), delete_insert_eq.
  split; [done|]. apply delete_id.
Qed.

(** X4.  When the import and the runners leave the files alone, an
    execution with the run control pressed leaves the file system as it
    found it, less the temporary path: with a fresh temporary name, the
    files are exactly those from before. *)
Theorem quiet_run_restores_files
    (ext : collaborators num) (up : UploadedFile) (files0 : files) :
  let path := upload_path ext up files0 in
  let r := run THRESHOLDS to_csv str_encode format_exc ext (Some up) true files0 in
  quiet ext →
  fs r.2 = delete path files0
  ∧ (files0 !! path = None → fs r.2 = files0).
Proof.
  intros path r Hquiet. subst r.
  pose proof (run_follows_course ext up files0) as Hrun. cbv zeta in Hrun.
  fold path in Hrun. rewrite Hrun. cbn [snd fs].
  rewrite (course_of_quiet ext path _ Hquiet), delete_insert_eq.
  split; [done|]. apply delete_id.
Qed.

(** X5.  The file an execution without the run control leaves behind is
    still there, with its bytes, after a later execution with the run
    control pressed, which removes only its own temporary file. *)
Theorem leftover_survives_later_run
    (ext1 ext2 : collaborators num) (up1 up2 : UploadedFile) (files0 : files) :
  let r1 := run THRESHOLDS to_csv str_encode format_exc ext1 (Some up1) false files0 in
  let r2 := run THRESHOLDS to_csv str_encode format_exc ext2 (Some up2) true (fs r1.2) in
  quiet ext2 →
  upload_path ext2 up2 (fs r1.2) ≠ upload_path ext1 up1 files0 →
  fs r2.2 !! upload_path ext1 up1 files0 = Some (getvalue up1)
  ∧ fs r2.2 !! upload_path ext2 up2 (fs r1.2) = None.
Proof.
  intros r1 r2 Hquiet Hne. subst r2.
  destruct (quiet_files ext2 up2 (fs r1.2) Hquiet) as [-> _].
  split; [|apply lookup_delete_eq].
  rewrite lookup_delete_ne by done.
  subst r1. rewrite run_not_pressed. apply lookup_insert_eq.
Qed.

(** ** Which runners are called, and what the page tells about it *)

(** X6.  In every execution the runners called form a prefix of the
    order SRMR, SigMOS, VQScore, WVMOS, each called at most once; a
    runner is called only when a file is uploaded and the run control
    pressed, and always on the path the upload was written to; a call
    that raised is the last one. *)
Theorem runners_called_in_order_on_the_upload
    (ext : collaborators num) (uploaded_file : option UploadedFile)
    (run_pressed : bool) (files0 : files) :
  let r := run THRESHOLDS to_csv str_encode format_exc ext uploaded_file
               run_pressed files0 in
  callees (calls r.2) `prefix_of` runner_order
  ∧ (∀ c, c ∈ calls r.2 →
       ∃ up, uploaded_file = Some up ∧ run_pressed = true
             ∧ arg c = upload_path ext up files0)
  ∧ (∀ c e, c ∈ calls r.2 → result c = Raises e → last (calls r.2) = Some c).
Proof.
  intros r. subst r.
  destruct uploaded_file as [up|];
    [|split; [apply prefix_nil|split; [intros c Hin|intros c e Hin]; inversion Hin]].
  destruct run_pressed;
    [|split; [apply prefix_nil|split; [intros c Hin|intros c e Hin]; inversion Hin]].
  destruct (run_course ext up files0) as (c & files' & -> & _).
  cbn [snd calls]. split; [|split].
  - destruct c; cbn; [apply prefix_nil|..]; unfold runner_order, prefix; eauto.
  - intros c' Hin. exists up. split; [done|]. split; [done|].
    destruct c; cbn in Hin;
      repeat (apply elem_of_cons in Hin as [->|Hin]; [done|]);
      by apply elem_of_nil in Hin.
  - intros c' e Hin Hraised.
    destruct c; cbn in Hin;
      repeat (apply elem_of_cons in Hin as [->|Hin];
              [first [discriminate Hraised|reflexivity]|]);
      by apply elem_of_nil in Hin.
Qed.

(** X7.  The progress bar starts at 0 and advances by 25 for each
    runner that returned, and only then: the values shown are the first
    [k + 1] of 0, 25, 50, 75, 100, where [k] is the number of runner
    calls that returned.  It shows 100 also when the aggregation fails
    afterwards. *)
Theorem progress_follows_returned_runners
    (ext : collaborators num) (up : UploadedFile) (files0 : files) :
  let r := run THRESHOLDS to_csv str_encode format_exc ext (Some up) true files0 in
  progress_shown (screen r.2)
  = take (S (length (returned (calls r.2)))) [0; 25; 50; 75; 100]%Z.
Proof.
  intros r. subst r.
  destruct (run_course ext up files0) as (c & files' & -> & _).
  cbn [snd screen calls].
  destruct c; unfold page_of, failure_page; simpl;
    repeat match goal with |- context [if ?b then _ else _] => destruct b end;
    reflexivity.
Qed.

(** X8.  The status text "Analysis Complete!" is shown exactly when all
    four runners returned: it is written before the rows are computed,
    so it is also on a page that ends with the error of the
    aggregation. *)
Theorem analysis_complete_iff_all_returned
    (ext : collaborators num) (up : UploadedFile) (files0 : files) :
  let r := run THRESHOLDS to_csv str_encode format_exc ext (Some up) true files0 in
  "Analysis Complete!" ∈ texts (screen r.2)
  ↔ ∃ s d v q, calls r.2 = returned_calls (upload_path ext up files0) s d v q.
Proof.
  intros r. subst r.
  destruct (run_course ext up files0) as (c & files' & -> & _).
  cbn [snd screen calls]. split.
  - destruct c as [e|e|? e|? ? e|? ? ? e|s d v q];
      [unfold page_of, failure_page; simpl;
       repeat match goal with |- context [if ?b then _ else _] => destruct b end;
       simpl; intros Hin;
       repeat (apply elem_of_cons in Hin as [Hin|Hin]; [discriminate Hin|]);
       by apply elem_of_nil in Hin..|].
    intros _. by exists s, d, v, q.
  - intros (s & d & v & q & Hcalls).
    apply (f_equal outputs), calls_of_returned in Hcalls. subst c.
    unfold page_of, report_page, failure_page. simpl.
    repeat match goal with |- context [if ?b then _ else _] => destruct b end;
      simpl; do 4 apply list_elem_of_further; apply list_elem_of_here.
Qed.

(** ** When a report is shown *)

(** X9.  A table is displayed exactly when all four runners returned and
    every metric that has a score also has a threshold. *)
Theorem report_shown_iff
    (ext : collaborators num) (up : UploadedFile) (files0 : files) :
  let r := run THRESHOLDS to_csv str_encode format_exc ext (Some up) true files0 in
  (∃ df, tables (screen r.2) = [df])
  ↔ ∃ s d v q,
      calls r.2 = returned_calls (upload_path ext up files0) s d v q
      ∧ forallb (comparable THRESHOLDS) (results_of s d v q) = true.
Proof.
  intros r. subst r.
  destruct (run_course ext up files0) as (c & files' & -> & _).
  cbn [snd screen calls]. rewrite tables_page_of. split.
  - intros [df Hdf].
    destruct (reported THRESHOLDS c) as [rs|] eqn:Hrs; [|done].
    destruct (reported_Some c rs Hrs) as (s & d & v & q & -> & -> & Hc).
    by exists s, d, v, q.
  - intros (s & d & v & q & Hcalls & Hc).
    apply (f_equal outputs), calls_of_returned in Hcalls. subst c.
    unfold reported. rewrite Hc. eauto.
Qed.

(** X10.  An execution that ends normally after the run control was
    pressed shows either the report (one table, one download control, no
    error box) or one error box with a trace and no report: never both,
    never neither. *)
Theorem normal_ending_shows_report_or_error
    (ext : collaborators num) (up : UploadedFile) (files0 : files) :
  let r := run THRESHOLDS to_csv str_encode format_exc ext (Some up) true files0 in
  r.1 = Returns () →
  (∃ df, tables (screen r.2) = [df]
         ∧ length (downloads (screen r.2)) = 1%nat
         ∧ errors (screen r.2) = [])
  ∨ (tables (screen r.2) = []
     ∧ downloads (screen r.2) = []
     ∧ ∃ e, errors (screen r.2)
            = [st_error ("An error occurred during analysis: " +:+ exn_str e);
               st_code (format_exc e)]).
Proof.
  intros r. subst r.
  destruct (run_course ext up files0) as (c & files' & -> & _).
  cbn [fst snd screen calls]. rewrite tables_page_of, downloads_page_of.
  destruct c as [e|e|? e|? ? e|? ? ? e|s d v q];
    unfold ending_of, page_of, reported, failure_page; simpl;
    try (destruct (isinstance_ImportError e); [done|]);
    try (destruct (isinstance_Exception e); [|done]; intros _; right; eauto).
  intros _.
  destruct (comparable THRESHOLDS (Item "SRMR" s) && _); [left|right].
  - eexists. by repeat split.
  - repeat split. by exists ge_None_error.
Qed.

(** ** The lines of the report *)

Lemma styled_page_of (up : UploadedFile) (c : course num) :
  styled_tables (page_of THRESHOLDS to_csv str_encode format_exc up c)
  = match reported THRESHOLDS c with
    | Some rs =>
        [(report_frame THRESHOLDS rs,
          (λ it, highlight_status
                   (PyStr (if passes THRESHOLDS it then "PASS" else "FAIL") : pyval num))
          <$> rs)]
    | None => []
    end.
Proof.
  destruct c; unfold page_of, reported, failure_page; simpl;
    repeat match goal with |- context [if ?b then _ else _] => destruct b end;
    reflexivity.
Qed.

Lemma elem_of_styled_tables (page : list (widget num)) df css :
  st_dataframe df css ∈ page → (df, css) ∈ styled_tables page.
Proof.
  intros Hx. unfold styled_tables. rewrite list_elem_of_omap.
  eexists. split; [exact Hx|done].
Qed.

Lemma description_column (rs : list (item num)) :
  df_getitem (report_frame THRESHOLDS rs) "Description"
  = Returns ((λ it, PyStr (default "" (METRIC_DESCRIPTIONS !! Metric it))) <$> rs).
Proof.
  unfold df_getitem, report_frame.
  change (index_of "Description" _) with (Some 1%nat). simpl.
  f_equal. rewrite <- list_fmap_compose. by apply list_fmap_ext.
Qed.

(** The cells of the line of an item, by column name. *)
Lemma cells_by_name (rs : list (item num)) (it : item num) :
  cell_at (report_frame THRESHOLDS rs) "Metric" (report_cells THRESHOLDS it)
  = Some (PyStr (Metric it))
  ∧ cell_at (report_frame THRESHOLDS rs) "Your Threshold" (report_cells THRESHOLDS it)
    = Some (of_score (THRESHOLDS !! Metric it))
  ∧ cell_at (report_frame THRESHOLDS rs) "Score" (report_cells THRESHOLDS it)
    = Some (of_score (py_round3 <$> Score it))
  ∧ cell_at (report_frame THRESHOLDS rs) "Result" (report_cells THRESHOLDS it)
    = Some (PyStr (if passes THRESHOLDS it then "PASS" else "FAIL")).
Proof. repeat split. Qed.

Lemma returned_calls_inj (path : string) s d v q s' d' v' q' :
  returned_calls (num := num) path s d v q = returned_calls path s' d' v' q' →
  s = s' ∧ d = d' ∧ v = v' ∧ q = q'.
Proof. intros Heq. by simplify_eq. Qed.

(** X11.  The styling of a displayed table follows its Result column
    line by line: a PASS cell is green and bold, a FAIL cell red and
    bold, and the column holds nothing else. *)
Theorem displayed_styles
    (ext : collaborators num) (up : UploadedFile) (files0 : files)
    (df : DataFrame num) (css : list string) :
  let r := run THRESHOLDS to_csv str_encode format_exc ext (Some up) true files0 in
  st_dataframe df css ∈ screen r.2 →
  ∃ cells,
    df_getitem df "Result" = Returns cells
    ∧ css = highlight_status <$> cells
    ∧ Forall2 (λ v style,
                 (v = PyStr "PASS" ∧ style = "color: green; font-weight: bold")
                 ∨ (v = PyStr "FAIL" ∧ style = "color: red; font-weight: bold"))
              cells css.
Proof.
  intros r Hin. subst r. apply elem_of_styled_tables in Hin. revert Hin.
  destruct (run_course ext up files0) as (c & files' & -> & _).
  cbn [snd screen]. rewrite styled_page_of.
  destruct (reported THRESHOLDS c) as [rs|]; [|by intros ?%elem_of_nil].
  intros [= -> ->]%list_elem_of_singleton.
  eexists. split; [apply result_column|].
  split; [by rewrite <- list_fmap_compose|].
  apply Forall2_fmap, Forall_Forall2_diag, Forall_forall. intros it _.
  destruct (passes THRESHOLDS it); [left|right]; done.
Qed.

(** X12.  In a displayed table a line whose Score is [None] is a FAIL
    line, and a line without threshold has no score either (and is a
    FAIL line): a metric whose runner returned [None] never fails the
    run, with or without a threshold. *)
Theorem row_without_score_or_threshold_is_FAIL
    (ext : collaborators num) (up : UploadedFile) (files0 : files)
    (df : DataFrame num) (row : list (pyval num)) :
  let r := run THRESHOLDS to_csv str_encode format_exc ext (Some up) true files0 in
  df ∈ tables (screen r.2) →
  row ∈ data df →
  (cell_at df "Score" row = Some PyNone → cell_at df "Result" row = Some (PyStr "FAIL"))
  ∧ (cell_at df "Your Threshold" row = Some PyNone →
     cell_at df "Score" row = Some PyNone ∧ cell_at df "Result" row = Some (PyStr "FAIL")).
Proof.
  intros r Hdf Hrow. subst r.
  destruct (table_shown ext up files0 df Hdf) as (s & d & v & q & _ & Hc & -> & _).
  apply list_elem_of_fmap_1 in Hrow as (it & -> & Hit).
  rewrite forallb_forall in Hc. apply list_elem_of_In, Hc in Hit.
  destruct (cells_by_name (results_of s d v q) it) as (_ & -> & -> & ->).
  unfold comparable in Hit. unfold passes.
  destruct (Score it) as [x|], (THRESHOLDS !! Metric it) as [t|]; simpl; done.
Qed.

(** X13.  A displayed table has three lines plus one per entry of the
    mapping SigMOS returned, and the first counter shows that number. *)
Theorem row_count
    (ext : collaborators num) (up : UploadedFile) (files0 : files)
    (df : DataFrame num) :
  let r := run THRESHOLDS to_csv str_encode format_exc ext (Some up) true files0 in
  df ∈ tables (screen r.2) →
  ∃ s d v q,
    calls r.2 = returned_calls (upload_path ext up files0) s d v q
    ∧ shape0 df = (3 + Z.of_nat (length (default [] d)))%Z
    ∧ counters (screen r.2) !! 0%nat
      = Some ("Total Checks", (3 + Z.of_nat (length (default [] d)))%Z).
Proof.
  intros r Hdf. subst r.
  destruct (table_shown ext up files0 df Hdf)
    as (s & d & v & q & Hcalls & _ & -> & _ & _ & ->).
  exists s, d, v, q. split; [exact Hcalls|].
  assert (Z.of_nat (length (results_of s d v q))
          = (3 + Z.of_nat (length (default [] d)))%Z) as Hlen.
  { unfold results_of. rewrite !length_app, length_fmap. simpl. lia. }
  split.
  - unfold shape0, report_frame. cbn [data]. by rewrite length_fmap.
  - cbn [lookup list_lookup]. by rewrite Hlen.
Qed.

(** X14.  PASS or FAIL is decided on the score as the runner returned
    it, while the line shows the score after [round(score, 3)]: for a
    metric with score [x] and threshold [t], the displayed line carries
    [t], the rounded [x], and PASS exactly when [x >= t]. *)
Theorem status_decided_on_unrounded_score
    (ext : collaborators num) (up : UploadedFile) (files0 : files)
    (df : DataFrame num)
    (s : option num) (d : option (list (string * option num))) (v q : option num)
    (it : item num) (x t : num) :
  let r := run THRESHOLDS to_csv str_encode format_exc ext (Some up) true files0 in
  df ∈ tables (screen r.2) →
  calls r.2 = returned_calls (upload_path ext up files0) s d v q →
  it ∈ results_of s d v q →
  Score it = Some x →
  THRESHOLDS !! Metric it = Some t →
  ∃ row,
    row ∈ data df
    ∧ cell_at df "Metric" row = Some (PyStr (Metric it))
    ∧ cell_at df "Your Threshold" row = Some (PyNum t)
    ∧ cell_at df "Score" row = Some (PyNum (py_round3 x))
    ∧ cell_at df "Result" row = Some (PyStr (if py_ge x t then "PASS" else "FAIL")).
Proof.
  intros r Hdf Hcalls Hit Hscore Hthreshold. subst r.
  destruct (table_shown ext up files0 df Hdf)
    as (s' & d' & v' & q' & Hcalls' & _ & -> & _).
  rewrite Hcalls in Hcalls'.
  apply returned_calls_inj in Hcalls' as (<- & <- & <- & <-).
  exists (report_cells THRESHOLDS it).
  split; [by apply list_elem_of_fmap_2|].
  destruct (cells_by_name (results_of s d v q) it) as (-> & -> & -> & ->).
  unfold passes. by rewrite Hscore, Hthreshold.
Qed.

(** X15.  The Description column of a displayed table shows the fixed
    texts for SRMR, VQScore and WVMOS and, for each SigMOS sub-metric,
    the text [METRIC_DESCRIPTIONS] has for its name or the empty string
    when it has none: a missing description is not an error. *)
Theorem displayed_descriptions
    (ext : collaborators num) (up : UploadedFile) (files0 : files)
    (df : DataFrame num) :
  let r := run THRESHOLDS to_csv str_encode format_exc ext (Some up) true files0 in
  df ∈ tables (screen r.2) →
  ∃ s d v q,
    calls r.2 = returned_calls (upload_path ext up files0) s d v q
    ∧ df_getitem df "Description"
      = Returns (PyStr <$>
                 ["Technical measurement of reverberation and room acoustics"]
                 ++ ((λ kv, default "" (METRIC_DESCRIPTIONS !! kv.1)) <$> default [] d)
                 ++ ["Overall voice quality assessment";
                     "Predicted subjective quality rating"]).
Proof.
  intros r Hdf. subst r.
  destruct (table_shown ext up files0 df Hdf) as (s & d & v & q & Hcalls & _ & -> & _).
  exists s, d, v, q. split; [exact Hcalls|].
  rewrite description_column. unfold results_of.
  rewrite !fmap_app, <- !list_fmap_compose. done.
Qed.

End Facts.

(** * The worked example and concrete runs *)

Import PyFloat Demo.

(** C5.  With thresholds SRMR 8.0, SIGMOS_OVRL 3.0, VQScore 0.6 and
    WVMOS 2.5, a run in which the runners return SRMR 9.5, the single
    SigMOS sub-metric SIGMOS_OVRL 3.2, VQScore 0.55 and WVMOS 3.0 shows a
    table whose Result column reads PASS, PASS, FAIL, PASS and the
    counters Total 4, Passed 3, Failed 1. *)
Theorem C5_worked_example
    (THRESHOLDS : gmap string float) (to_csv : DataFrame float → string)
    (str_encode : string → string → list Byte.byte) (format_exc : exn → string)
    (ext : collaborators float) (up : UploadedFile) (files0 : files) :
  let r := run THRESHOLDS to_csv str_encode format_exc ext (Some up) true files0 in
  THRESHOLDS !! "SRMR" = Some 8.0%float →
  THRESHOLDS !! "SIGMOS_OVRL" = Some 3.0%float →
  THRESHOLDS !! "VQScore" = Some 0.6%float →
  THRESHOLDS !! "WVMOS" = Some 2.5%float →
  calls r.2 = returned_calls (upload_path ext up files0)
                (Some 9.5%float) (Some [("SIGMOS_OVRL", Some 3.2%float)])
                (Some 0.55%float) (Some 3.0%float) →
  (λ df, df_getitem df "Result") <$> tables (screen r.2)
  = [Returns [PyStr "PASS"; PyStr "PASS"; PyStr "FAIL"; PyStr "PASS"]]
  ∧ counters (screen r.2)
    = [("Total Checks", 4%Z); ("Passed", 3%Z); ("Failed", 1%Z)].
Proof.
  intros r Hsrmr Hovrl Hvq Hwvmos Hcalls. subst r.
  destruct (run_course THRESHOLDS to_csv str_encode format_exc ext up files0)
    as (c & files' & Hrun & _).
  rewrite Hrun in *. cbn [fst snd screen calls] in *.
  apply (f_equal outputs), calls_of_returned in Hcalls. subst c.
  rewrite tables_page_of, counters_page_of.
  unfold reported.
  change (results_of _ _ _ _)
    with [Item "SRMR" (Some 9.5%float); Item "SIGMOS_OVRL" (Some 3.2%float);
          Item "VQScore" (Some 0.55%float); Item "WVMOS" (Some 3.0%float)].
  cbn [forallb comparable Metric Score].
  rewrite Hsrmr, Hovrl, Hvq, Hwvmos. cbn [andb fmap list_fmap].
  unfold report_frame. rewrite result_column.
  cbn [fmap list_fmap List.filter passes Metric Score].
  rewrite Hsrmr, Hovrl, Hvq, Hwvmos.
  split; reflexivity.
Qed.

Lemma C5_witness :
  (λ df, df_getitem df "Result") <$> tables (screen (execute example upload true ∅).2)
  = [Returns [PyStr "PASS"; PyStr "PASS"; PyStr "FAIL"; PyStr "PASS"]]
  ∧ counters (screen (execute example upload true ∅).2)
    = [("Total Checks", 4%Z); ("Passed", 3%Z); ("Failed", 1%Z)].
Proof.
  apply (C5_worked_example thresholds to_csv str_encode format_exc example upload ∅);
    vm_compute; reflexivity.
Defined.

(** The example, evaluated: the execution ends normally, the four
    runners are called in order, and the temporary file is gone. *)
Example example_run_completes :
  (execute example upload true ∅).1 = Returns ()
  ∧ callees (calls (execute example upload true ∅).2) = runner_order
  ∧ fs (execute example upload true ∅).2 !! "/tmp/tmpq7x2k9.wav" = None
  ∧ errors (screen (execute example upload true ∅).2) = [].
Proof. vm_compute. repeat split. Qed.

(** The same upload without pressing the run control: the temporary file
    stays. *)
Example unpressed_run_leaves_file :
  upload_path example upload ∅ = "/tmp/tmpq7x2k9.wav"
  ∧ fs (execute example upload false ∅).2 !! "/tmp/tmpq7x2k9.wav" = Some "RIFF"
  ∧ screen (execute example upload false ∅).2
    = [st_audio "RIFF" "audio/wav"; st_button "Run Analysis"].
Proof. vm_compute. repeat split. Qed.

(** [round(score, 3)] on the scores of the long run. *)
Example round3_samples :
  round3 9.123456%float = 9.123%float
  ∧ round3 3.14159%float = 3.142%float
  ∧ round3 2.9996%float = 3.0%float
  ∧ round3 9.5%float = 9.5%float.
Proof. vm_compute. repeat split. Qed.

Lemma C1_witness :
  thresholds !! "SIGMOS_NOISE" = None
  ∧ (execute sigmos_extra upload true ∅).1 = Returns ()
  ∧ tables (screen (execute sigmos_extra upload true ∅).2) = []
  ∧ downloads (screen (execute sigmos_extra upload true ∅).2) = []
  ∧ errors (screen (execute sigmos_extra upload true ∅).2)
    = [st_error "An error occurred during analysis: '>=' not supported between instances of 'float' and 'NoneType'";
       st_code "Traceback (most recent call last): '>=' not supported between instances of 'float' and 'NoneType'"].
Proof.
  pose proof (C1_score_without_threshold_fails_the_run
                thresholds to_csv str_encode format_exc sigmos_extra upload ∅
                (Some 9.5%float)
                (Some [("SIGMOS_OVRL", Some 3.2%float); ("SIGMOS_NOISE", Some 4.1%float)])
                (Some 0.55%float) (Some 3.0%float)
                (Item "SIGMOS_NOISE" (Some 4.1%float)) 4.1%float) as Hthm.
  cbv zeta in Hthm.
  assert (calls (execute sigmos_extra upload true ∅).2
          = returned_calls (upload_path sigmos_extra upload ∅) (Some 9.5%float)
              (Some [("SIGMOS_OVRL", Some 3.2%float); ("SIGMOS_NOISE", Some 4.1%float)])
              (Some 0.55%float) (Some 3.0%float)) as Hcalls
    by (vm_compute; reflexivity).
  assert (Item "SIGMOS_NOISE" (Some 4.1%float)
          ∈ results_of (Some 9.5%float)
              (Some [("SIGMOS_OVRL", Some 3.2%float); ("SIGMOS_NOISE", Some 4.1%float)])
              (Some 0.55%float) (Some 3.0%float)) as Hitem
    by (apply (list_elem_of_lookup_2 _ 2); reflexivity).
  assert (thresholds !! "SIGMOS_NOISE" = None) as Hnone
    by (vm_compute; reflexivity).
  split; [exact Hnone|].
  exact (proj2 (Hthm Hcalls Hitem eq_refl Hnone)).
Defined.

Lemma C4_witness :
  raised (calls (execute vq_fails upload true ∅).2)
  = Some ("calculate_vqscore", Exn Exception "checkpoint not found")
  ∧ callees (calls (execute vq_fails upload true ∅).2)
    = ["calculate_srmr"; "calculate_sigmos"; "calculate_vqscore"]
  ∧ tables (screen (execute vq_fails upload true ∅).2) = []
  ∧ downloads (screen (execute vq_fails upload true ∅).2) = []
  ∧ errors (screen (execute vq_fails upload true ∅).2)
    = [st_error "An error occurred during analysis: checkpoint not found";
       st_code "Traceback (most recent call last): checkpoint not found"].
Proof.
  pose proof (C4_runner_exception_aborts_run
                thresholds to_csv str_encode format_exc vq_fails upload ∅
                "calculate_vqscore" (Exn Exception "checkpoint not found")) as Hthm.
  cbv zeta in Hthm.
  assert (raised (calls (execute vq_fails upload true ∅).2)
          = Some ("calculate_vqscore", Exn Exception "checkpoint not found")) as Hraised
    by (vm_compute; reflexivity).
  split; [exact Hraised|].
  destruct (Hthm Hraised) as (_ & _ & Htables & Hdownloads & Hcaught & _).
  split; [vm_compute; reflexivity|].
  split; [exact Htables|]. split; [exact Hdownloads|].
  exact (proj2 (Hcaught eq_refl)).
Defined.

Lemma C6_witness :
  upload_path example upload ∅
  ≠ upload_path example_again second_upload {["/tmp/stale.wav" := "RIFF"]}
  ∧ outputs (calls (execute example upload true ∅).2)
    = outputs (calls (execute example_again second_upload true
                        {["/tmp/stale.wav" := "RIFF"]}).2)
  ∧ length (downloads (screen (execute example upload true ∅).2)) = 1%nat
  ∧ downloads (screen (execute example upload true ∅).2)
    = downloads (screen (execute example_again second_upload true
                           {["/tmp/stale.wav" := "RIFF"]}).2).
Proof.
  pose proof (C6_same_outputs_same_csv thresholds to_csv str_encode format_exc
                example example_again upload second_upload ∅
                {["/tmp/stale.wav" := "RIFF"]}) as Hthm.
  cbv zeta in Hthm.
  split; [vm_compute; discriminate|].
  assert (outputs (calls (execute example upload true ∅).2)
          = outputs (calls (execute example_again second_upload true
                              {["/tmp/stale.wav" := "RIFF"]}).2)) as Hout
    by (vm_compute; reflexivity).
  split; [exact Hout|]. split; [vm_compute; reflexivity|].
  exact (Hthm Hout).
Defined.


Lemma C8_witness :
  report_frame thresholds rs_example ∈ tables (screen (execute example upload true ∅).2)
  ∧ df_getitem (report_frame thresholds rs_example) "Metric"
    = Returns [PyStr "SRMR"; PyStr "SIGMOS_OVRL"; PyStr "VQScore"; PyStr "WVMOS"].
Proof.
  pose proof (C8_rows_in_invocation_order thresholds to_csv str_encode format_exc
                example upload ∅ (report_frame thresholds rs_example)) as Hthm.
  cbv zeta in Hthm.
  assert (report_frame thresholds rs_example
          ∈ tables (screen (execute example upload true ∅).2)) as Hdf
    by (apply (list_elem_of_lookup_2 _ 0); vm_compute; reflexivity).
  split; [exact Hdf|].
  destruct (Hthm Hdf) as (s & d & v & q & Hcalls & Hmetric).
  vm_compute in Hcalls. injection Hcalls as <- <- <- <-.
  exact Hmetric.
Defined.

Lemma C9_witness :
  (execute sigmos_empty upload true ∅).1 = Returns ()
  ∧ (λ df, df_getitem df "Metric") <$> tables (screen (execute sigmos_empty upload true ∅).2)
    = [Returns [PyStr "SRMR"; PyStr "VQScore"; PyStr "WVMOS"]]
  ∧ errors (screen (execute sigmos_empty upload true ∅).2) = [].
Proof.
  pose proof (C9_empty_sigmos_gives_three_rows thresholds to_csv str_encode format_exc
                sigmos_empty upload ∅
                (Some 9.5%float) (Some []) (Some 0.55%float) (Some 3.0%float)) as Hthm.
  cbv zeta in Hthm.
  assert (calls (execute sigmos_empty upload true ∅).2
          = returned_calls (upload_path sigmos_empty upload ∅)
              (Some 9.5%float) (Some []) (Some 0.55%float) (Some 3.0%float)) as Hcalls
    by (vm_compute; reflexivity).
  assert (forallb (comparable thresholds)
            [Item "SRMR" (Some 9.5%float); Item "VQScore" (Some 0.55%float);
             Item "WVMOS" (Some 3.0%float)] = true) as Hthresholds
    by (vm_compute; reflexivity).
  destruct (Hthm Hcalls eq_refl Hthresholds)
    as (Hend & (df & Htables & _ & Hmetric) & _ & Herrors).
  split; [exact Hend|]. split; [|exact Herrors].
  rewrite Htables. cbn [fmap list_fmap]. by rewrite Hmetric.
Defined.

Lemma C10_witness :
  report_frame thresholds rs_example ∈ tables (screen (execute example upload true ∅).2)
  ∧ ∃ total passed failed : Z,
      counters (screen (execute example upload true ∅).2)
      = [("Total Checks", total); ("Passed", passed); ("Failed", failed)]
      ∧ (passed + failed)%Z = total.
Proof.
  pose proof (C10_summary_counts thresholds to_csv str_encode format_exc
                example upload ∅ (report_frame thresholds rs_example)) as Hthm.
  cbv zeta in Hthm.
  assert (report_frame thresholds rs_example
          ∈ tables (screen (execute example upload true ∅).2)) as Hdf
    by (apply (list_elem_of_lookup_2 _ 0); vm_compute; reflexivity).
  split; [exact Hdf|].
  destruct (Hthm Hdf) as (total & passed & failed & Hcounters & _ & _ & _ & _ & Hsum).
  exists total, passed, failed. split; [exact Hcounters|exact Hsum].
Defined.

(** ** Concrete runs for the further properties *)

Lemma import_error_witness :
  (execute import_fails upload true ∅).1 = Raises (Exn StopException "")
  ∧ calls (execute import_fails upload true ∅).2 = []
  ∧ errors (screen (execute import_fails upload true ∅).2)
    = [st_error "Failed to load metric modules: No module named 'srmr'"].
Proof.
  pose proof (import_error_stops_the_script thresholds to_csv str_encode format_exc
                import_fails upload ∅ (Exn ImportError "No module named 'srmr'")) as Hthm.
  cbv zeta in Hthm.
  destruct (Hthm eq_refl eq_refl) as (Hend & Hcalls & Herrors & _).
  split; [exact Hend|]. split; [exact Hcalls|exact Herrors].
Defined.

Lemma import_exception_witness :
  (execute import_breaks upload true ∅).1 = Returns ()
  ∧ calls (execute import_breaks upload true ∅).2 = []
  ∧ errors (screen (execute import_breaks upload true ∅).2)
    = [st_error "An error occurred during analysis: model download failed";
       st_code "Traceback (most recent call last): model download failed"].
Proof.
  pose proof (import_exception_reported_as_analysis_error
                thresholds to_csv str_encode format_exc
                import_breaks upload ∅ (Exn Exception "model download failed")) as Hthm.
  cbv zeta in Hthm.
  destruct (Hthm eq_refl eq_refl eq_refl) as (Hend & Hcalls & Herrors & _).
  split; [exact Hend|]. split; [exact Hcalls|exact Herrors].
Defined.

Lemma no_Exception_escapes_witness :
  (execute import_fails upload true ∅).1 = Raises (Exn StopException "")
  ∧ isinstance_Exception (Exn StopException "") = false.
Proof.
  assert ((execute import_fails upload true ∅).1 = Raises (Exn StopException ""))
    as Hend by (vm_compute; reflexivity).
  split; [exact Hend|].
  exact (no_Exception_escapes thresholds to_csv str_encode format_exc
           import_fails (Some upload) true ∅ _ Hend).
Defined.

Lemma example_quiet : quiet example.
Proof. repeat split. Qed.

Lemma quiet_run_witness :
  disk !! upload_path example upload disk = None
  ∧ fs (execute example upload true disk).2 = disk.
Proof.
  pose proof (quiet_run_restores_files thresholds to_csv str_encode format_exc
                example upload disk) as Hthm.
  cbv zeta in Hthm.
  assert (disk !! upload_path example upload disk = None) as Hfresh
    by (vm_compute; reflexivity).
  split; [exact Hfresh|].
  exact (proj2 (Hthm example_quiet) Hfresh).
Defined.

Lemma example_again_quiet : quiet example_again.
Proof. repeat split. Qed.

Lemma leftover_witness :
  fs (execute example_again second_upload true
        (fs (execute example upload false ∅).2)).2
    !! "/tmp/tmpq7x2k9.wav" = Some "RIFF".
Proof.
  pose proof (leftover_survives_later_run thresholds to_csv str_encode format_exc
                example example_again upload second_upload ∅) as Hthm.
  cbv zeta in Hthm.
  assert (upload_path example_again second_upload (fs (execute example upload false ∅).2)
          ≠ upload_path example upload ∅) as Hne by (vm_compute; discriminate).
  exact (proj1 (Hthm example_again_quiet Hne)).
Defined.

Lemma normal_ending_witness :
  (execute example upload true ∅).1 = Returns ()
  ∧ length (tables (screen (execute example upload true ∅).2)) = 1%nat
  ∧ errors (screen (execute example upload true ∅).2) = [].
Proof.
  pose proof (normal_ending_shows_report_or_error
                thresholds to_csv str_encode format_exc example upload ∅) as Hthm.
  cbv zeta in Hthm.
  assert ((execute example upload true ∅).1 = Returns ()) as Hend
    by (vm_compute; reflexivity).
  split; [exact Hend|].
  destruct (Hthm Hend) as [(df & Htables & _ & Herrors)|(Htables & _)].
  - split; [by rewrite Htables|exact Herrors].
  - vm_compute in Htables. discriminate Htables.
Defined.

Lemma displayed_styles_witness :
  ∃ df css,
    st_dataframe df css ∈ screen (execute example upload true ∅).2
    ∧ df_getitem df "Result"
      = Returns [PyStr "PASS"; PyStr "PASS"; PyStr "FAIL"; PyStr "PASS"]
    ∧ css = ["color: green; font-weight: bold"; "color: green; font-weight: bold";
             "color: red; font-weight: bold"; "color: green; font-weight: bold"].
Proof.
  pose proof (displayed_styles thresholds to_csv str_encode format_exc
                example upload ∅ (report_frame thresholds rs_example)
                ["color: green; font-weight: bold"; "color: green; font-weight: bold";
                 "color: red; font-weight: bold"; "color: green; font-weight: bold"])
    as Hthm.
  cbv zeta in Hthm.
  assert (st_dataframe (report_frame thresholds rs_example)
            ["color: green; font-weight: bold"; "color: green; font-weight: bold";
             "color: red; font-weight: bold"; "color: green; font-weight: bold"]
          ∈ screen (execute example upload true ∅).2) as Hin
    by (apply (list_elem_of_lookup_2 _ 20); vm_compute; reflexivity).
  destruct (Hthm Hin) as (cells & Hcells & _ & _).
  eexists _, _. split; [exact Hin|]. split; [|reflexivity].
  rewrite Hcells. f_equal. vm_compute in Hcells. by injection Hcells as <-.
Defined.

Lemma row_without_score_witness :
  thresholds_partial !! "SRMR" = None
  ∧ report_frame thresholds_partial rs_partial
    ∈ tables (screen (run thresholds_partial to_csv str_encode format_exc srmr_none
                          (Some upload) true ∅).2)
  ∧ [PyStr "SRMR"; PyStr "Technical measurement of reverberation and room acoustics";
     PyNone; PyNone; PyStr "FAIL"]
    ∈ data (report_frame thresholds_partial rs_partial)
  ∧ cell_at (report_frame thresholds_partial rs_partial) "Result"
         [PyStr "SRMR"; PyStr "Technical measurement of reverberation and room acoustics";
          PyNone; PyNone; PyStr "FAIL"]
    = Some (PyStr "FAIL").
Proof.
  pose proof (row_without_score_or_threshold_is_FAIL
                thresholds_partial to_csv str_encode format_exc srmr_none upload ∅
                (report_frame thresholds_partial rs_partial)
                [PyStr "SRMR";
                 PyStr "Technical measurement of reverberation and room acoustics";
                 PyNone; PyNone; PyStr "FAIL"]) as Hthm.
  cbv zeta in Hthm.
  assert (report_frame thresholds_partial rs_partial
          ∈ tables (screen (run thresholds_partial to_csv str_encode format_exc srmr_none
                                (Some upload) true ∅).2)) as Hdf
    by (apply (list_elem_of_lookup_2 _ 0); vm_compute; reflexivity).
  assert ([PyStr "SRMR";
           PyStr "Technical measurement of reverberation and room acoustics";
           PyNone; PyNone; PyStr "FAIL"]
          ∈ data (report_frame thresholds_partial rs_partial)) as Hrow
    by (apply (list_elem_of_lookup_2 _ 0); vm_compute; reflexivity).
  split; [vm_compute; reflexivity|]. split; [exact Hdf|]. split; [exact Hrow|].
  exact (proj2 (proj2 (Hthm Hdf Hrow) eq_refl)).
Defined.

Lemma row_count_witness :
  report_frame thresholds rs_example ∈ tables (screen (execute example upload true ∅).2)
  ∧ shape0 (report_frame thresholds rs_example) = 4%Z
  ∧ counters (screen (execute example upload true ∅).2) !! 0%nat
    = Some ("Total Checks", 4%Z).
Proof.
  pose proof (row_count thresholds to_csv str_encode format_exc
                example upload ∅ (report_frame thresholds rs_example)) as Hthm.
  cbv zeta in Hthm.
  assert (report_frame thresholds rs_example
          ∈ tables (screen (execute example upload true ∅).2)) as Hdf
    by (apply (list_elem_of_lookup_2 _ 0); vm_compute; reflexivity).
  split; [exact Hdf|].
  destruct (Hthm Hdf) as (s & d & v & q & Hcalls & Hrows & Htotal).
  vm_compute in Hcalls. injection Hcalls as <- <- <- <-.
  split; [exact Hrows|exact Htotal].
Defined.

Lemma status_decided_on_unrounded_score_witness :
  ∃ row,
    row ∈ data (report_frame thresholds rs_close)
    ∧ cell_at (report_frame thresholds rs_close) "Metric" row = Some (PyStr "WVMOS")
    ∧ cell_at (report_frame thresholds rs_close) "Your Threshold" row = Some (PyNum 2.5%float)
    ∧ cell_at (report_frame thresholds rs_close) "Score" row = Some (PyNum 2.5%float)
    ∧ cell_at (report_frame thresholds rs_close) "Result" row = Some (PyStr "FAIL").
Proof.
  pose proof (status_decided_on_unrounded_score
                thresholds to_csv str_encode format_exc wvmos_close upload ∅
                (report_frame thresholds rs_close)
                (Some 9.5%float) (Some [("SIGMOS_OVRL", Some 3.2%float)])
                (Some 0.55%float) (Some 2.4996%float)
                (Item "WVMOS" (Some 2.4996%float)) 2.4996%float 2.5%float) as Hthm.
  cbv zeta in Hthm.
  assert (report_frame thresholds rs_close
          ∈ tables (screen (execute wvmos_close upload true ∅).2)) as Hdf
    by (apply (list_elem_of_lookup_2 _ 0); vm_compute; reflexivity).
  assert (calls (execute wvmos_close upload true ∅).2
          = returned_calls (upload_path wvmos_close upload ∅)
              (Some 9.5%float) (Some [("SIGMOS_OVRL", Some 3.2%float)])
              (Some 0.55%float) (Some 2.4996%float)) as Hcalls
    by (vm_compute; reflexivity).
  assert (Item "WVMOS" (Some 2.4996%float)
          ∈ results_of (Some 9.5%float) (Some [("SIGMOS_OVRL", Some 3.2%float)])
              (Some 0.55%float) (Some 2.4996%float)) as Hit
    by (apply (list_elem_of_lookup_2 _ 3); reflexivity).
  assert (thresholds !! "WVMOS" = Some 2.5%float) as Ht by (vm_compute; reflexivity).
  destruct (Hthm Hdf Hcalls Hit eq_refl Ht) as (row & Hrow & Hm & Hthr & Hscore & Hres).
  exists row. split; [exact Hrow|]. split; [exact Hm|]. split; [exact Hthr|].
  split; [exact Hscore|exact Hres].
Defined.

Lemma displayed_descriptions_witness :
  report_frame thresholds_partial rs_partial
  ∈ tables (screen (run thresholds_partial to_csv str_encode format_exc srmr_none
                        (Some upload) true ∅).2)
  ∧ df_getitem (report_frame thresholds_partial rs_partial) "Description"
    = Returns [PyStr "Technical measurement of reverberation and room acoustics";
               PyStr "";
               PyStr "Overall voice quality assessment";
               PyStr "Predicted subjective quality rating"].
Proof.
  pose proof (displayed_descriptions thresholds_partial to_csv str_encode format_exc
                srmr_none upload ∅ (report_frame thresholds_partial rs_partial)) as Hthm.
  cbv zeta in Hthm.
  assert (report_frame thresholds_partial rs_partial
          ∈ tables (screen (run thresholds_partial to_csv str_encode format_exc srmr_none
                                (Some upload) true ∅).2)) as Hdf
    by (apply (list_elem_of_lookup_2 _ 0); vm_compute; reflexivity).
  split; [exact Hdf|].
  destruct (Hthm Hdf) as (s & d & v & q & Hcalls & Hdesc).
  vm_compute in Hcalls. injection Hcalls as <- <- <- <-.
  rewrite Hdesc. vm_compute. reflexivity.
Defined.
